(** * The employee time-tracking widget

    A shallow embedding of [src/components/employee/time-tracking-widget.tsx]:
    the React state of [TimeTrackingWidget], its timer effect, its two
    fetchers, its four mutating handlers and the parts of its JSX that
    decide what the user sees.  Asynchronous code is split at its [await]s:
    every piece between two [await]s is a function on the widget's world,
    and the outcome of the awaited promise is an argument of the piece that
    follows it. *)

From Stdlib Require Import ZArith QArith String List Lia Bool Ascii DecimalString.
Import ListNotations.

Open Scope Z_scope.
Open Scope string_scope.

(** ** JavaScript values *)

Module Js.

(** The numbers the widget computes with are millisecond counts:
    [Date.now()] is an integer, [Date.prototype.getTime()] is an integer
    or [NaN] (for an Invalid Date), and [useState(0)] starts at 0. *)
Inductive number := NaN | Num (z : Z).

(** [a - b] *)
Definition sub (a b : number) : number :=
  match a, b with
  | Num x, Num y => Num (x - y)
  | _, _ => NaN
  end.

(** [a % m]: the sign follows the dividend. *)
Definition rem (a : number) (m : Z) : number :=
  match a with
  | Num x => Num (Z.rem x m)
  | NaN => NaN
  end.

(** [Math.floor(a / d)] for a positive constant [d]. *)
Definition floor_div (a : number) (d : Z) : number :=
  match a with
  | Num x => Num (x / d)
  | NaN => NaN
  end.

(** [a.toString()] *)
Definition toString (a : number) : string :=
  match a with
  | Num x => NilEmpty.string_of_int (Z.to_int x)
  | NaN => "NaN"
  end.

Fixpoint replicate (n : nat) (c : ascii) : string :=
  match n with
  | O => EmptyString
  | S k => String c (replicate k c)
  end.

(** [s.padStart(n, c)] for a one-character filler. *)
Definition padStart (n : nat) (c : ascii) (s : string) : string :=
  replicate (n - String.length s) c ++ s.

(** Truthiness of an optional string: [undefined], [null] and the empty
    string are falsy. *)
Definition truthy (s : option string) : bool :=
  match s with
  | Some EmptyString => false
  | Some _ => true
  | None => false
  end.

(** [s || d] *)
Definition or_else (s : option string) (d : string) : string :=
  match s with
  | Some EmptyString => d
  | Some x => x
  | None => d
  end.

End Js.

(** ** Data model *)

Inductive Status := active | completed | break.

Definition Status_eqb (a b : Status) : bool :=
  match a, b with
  | active, active | completed, completed | break, break => true
  | _, _ => false
  end.

(** What the parsed JSON holds where the interface says [number?]:
    nothing ([undefined] or [null]), a number, or a value of another type
    (kept as its JSON text). *)
Inductive OptionalNumber :=
| NoValue
| NumberValue (q : Q)
| OtherValue (json : string).

(** [interface CurrentTimeEntry] *)
Module Entry.
Record t := {
  id : string;
  clock_in : string;
  clock_out : option string;
  break_start : option string;
  break_end : option string;
  status : Status;
  location : option string;
  total_hours : OptionalNumber;
  break_duration : Q
}.
End Entry.

(** [interface RecentActivity] *)
Module Activity.
Record t := {
  id : string;
  clock_in : string;
  clock_out : option string;
  total_hours : option Q;
  status : Status;
  date : string
}.
End Activity.

(** The [useState] cells of the component ([currentTime] is the cosmetic
    wall clock and is left out). *)
Record Hooks := {
  currentEntry : option Entry.t;
  recentActivities : list Activity.t;
  isLoading : bool;
  elapsedTime : Js.number;
  breakTime : Js.number;
  isRealTime : bool
}.

(** ** Collaborators *)

(** The four mutating handlers. *)
Inductive Op := ClockIn | ClockOut | StartBreak | EndBreak.

(** Calls of [fetch('/api/time-entries', ...)]. *)
Inductive Request :=
| GET_history
| POST_get_current
| POST_action (op : Op).

(** The parsed JSON body [{success, data, error}]. *)
Record Body (T : Type) := {
  success : bool;
  data : option T;
  error : option string
}.
Arguments success {T} _.
Arguments data {T} _.
Arguments error {T} _.

(** How [await fetch(...)] followed by [await response.json()] can end:
    the fetch promise rejects, or a response with a status arrives whose
    body parses to an object ([Some]) or does not ([None]). *)
Inductive FetchOutcome (T : Type) :=
| Rejected
| Replied (status : Z) (body : option (Body T)).
Arguments Rejected {T}.
Arguments Replied {T} _ _.

(** How [await getCurrentUser()] can end. *)
Inductive AuthOutcome :=
| AuthRejected
| Anonymous
| SignedIn (uid : string).

(** [sonner] toasts; the [description] option of a success toast is not
    kept. *)
Inductive Toast :=
| toast_success (title : string)
| toast_error (message : string).

(** A handler that is suspended at an [await]. *)
Inductive Pending :=
| AwaitUser
| AwaitResponse (op : Op).

(** Progress of [initializeWidget], the mount effect. *)
Inductive Boot :=
| BootAuth
| BootFetching (currentDone activitiesDone : bool)
| BootDelay
| Booted
| BootFailed.

(** The widget and everything it has done to the outside.  [ui] holds
    the current values of the state cells, as the [set...] calls leave
    them; [page] holds the values of the last render that was committed:
    they are what the page shows, and they are the constants that the
    closures of its handlers have captured. *)
Record World := {
  ui : Hooks;
  toasts : list Toast;
  dispatched : list string;
  requests : list Request;
  refreshTimers : nat;
  inflight : list Pending;
  boot : Boot;
  page : Hooks
}.

Definition with_ui (f : Hooks -> Hooks) (w : World) : World :=
  {| ui := f (ui w); toasts := toasts w; dispatched := dispatched w;
     requests := requests w; refreshTimers := refreshTimers w;
     inflight := inflight w; boot := boot w; page := page w |}.

Definition with_inflight (f : list Pending -> list Pending) (w : World) : World :=
  {| ui := ui w; toasts := toasts w; dispatched := dispatched w;
     requests := requests w; refreshTimers := refreshTimers w;
     inflight := f (inflight w); boot := boot w; page := page w |}.

Definition with_boot (b : Boot) (w : World) : World :=
  {| ui := ui w; toasts := toasts w; dispatched := dispatched w;
     requests := requests w; refreshTimers := refreshTimers w;
     inflight := inflight w; boot := b; page := page w |}.

(** A render is committed: the page and the closures of its handlers
    are those of the current state. *)
Definition commit (w : World) : World :=
  {| ui := ui w; toasts := toasts w; dispatched := dispatched w;
     requests := requests w; refreshTimers := refreshTimers w;
     inflight := inflight w; boot := boot w; page := ui w |}.

(** ** Statements of the component as a state-and-exception monad *)

Inductive Result (A : Type) :=
| Ok (a : A)
| Thrown.
Arguments Ok {A} _.
Arguments Thrown {A}.

Definition M (A : Type) : Type := World -> Result A * World.

Definition ret {A} (a : A) : M A := fun w => (Ok a, w).

Definition throw {A} : M A := fun w => (Thrown, w).

Definition bind {A B} (m : M A) (k : A -> M B) : M B :=
  fun w =>
    match m w with
    | (Ok a, w') => k a w'
    | (Thrown, w') => (Thrown, w')
    end.

Declare Scope js_scope.
Delimit Scope js_scope with js.
Notation "x <- m ;; k" := (bind m (fun x => k))
  (at level 61, m at next level, right associativity) : js_scope.
Notation "m ;; k" := (bind m (fun _ => k))
  (at level 61, right associativity) : js_scope.

Definition modify (f : World -> World) : M unit := fun w => (Ok tt, f w).

(** [try { body } catch { handler }] *)
Definition try_catch {A} (body handler : M A) : M A :=
  fun w =>
    match body w with
    | (Ok a, w') => (Ok a, w')
    | (Thrown, w') => handler w'
    end.

(** The state left by a statement, whatever its completion. *)
Definition exec {A} (m : M A) (w : World) : World := snd (m w).

Definition setCurrentEntry (e : option Entry.t) : M unit :=
  modify (with_ui (fun h =>
    {| currentEntry := e; recentActivities := recentActivities h;
       isLoading := isLoading h; elapsedTime := elapsedTime h;
       breakTime := breakTime h; isRealTime := isRealTime h |})).

Definition setRecentActivities (l : list Activity.t) : M unit :=
  modify (with_ui (fun h =>
    {| currentEntry := currentEntry h; recentActivities := l;
       isLoading := isLoading h; elapsedTime := elapsedTime h;
       breakTime := breakTime h; isRealTime := isRealTime h |})).

Definition setIsLoading (b : bool) : M unit :=
  modify (with_ui (fun h =>
    {| currentEntry := currentEntry h; recentActivities := recentActivities h;
       isLoading := b; elapsedTime := elapsedTime h;
       breakTime := breakTime h; isRealTime := isRealTime h |})).

Definition setElapsedTime (n : Js.number) : M unit :=
  modify (with_ui (fun h =>
    {| currentEntry := currentEntry h; recentActivities := recentActivities h;
       isLoading := isLoading h; elapsedTime := n;
       breakTime := breakTime h; isRealTime := isRealTime h |})).

Definition setBreakTime (n : Js.number) : M unit :=
  modify (with_ui (fun h =>
    {| currentEntry := currentEntry h; recentActivities := recentActivities h;
       isLoading := isLoading h; elapsedTime := elapsedTime h;
       breakTime := n; isRealTime := isRealTime h |})).

Definition setIsRealTime (b : bool) : M unit :=
  modify (with_ui (fun h =>
    {| currentEntry := currentEntry h; recentActivities := recentActivities h;
       isLoading := isLoading h; elapsedTime := elapsedTime h;
       breakTime := breakTime h; isRealTime := b |})).

(** [toast.success(...)] and [toast.error(...)] *)
Definition toast (t : Toast) : M unit :=
  modify (fun w =>
    {| ui := ui w; toasts := toasts w ++ [t]; dispatched := dispatched w;
       requests := requests w; refreshTimers := refreshTimers w;
       inflight := inflight w; boot := boot w; page := page w |}).

(** [window.dispatchEvent(new CustomEvent(name))] *)
Definition dispatchEvent (name : string) : M unit :=
  modify (fun w =>
    {| ui := ui w; toasts := toasts w; dispatched := dispatched w ++ [name];
       requests := requests w; refreshTimers := refreshTimers w;
       inflight := inflight w; boot := boot w; page := page w |}).

(** [setTimeout(() => { fetchRecentActivities() }, 1000)] *)
Definition setTimeout_fetchRecentActivities : M unit :=
  modify (fun w =>
    {| ui := ui w; toasts := toasts w; dispatched := dispatched w;
       requests := requests w; refreshTimers := S (refreshTimers w);
       inflight := inflight w; boot := boot w; page := page w |}).

(** The call [fetch(...)] itself: the request leaves. *)
Definition fetch (r : Request) : M unit :=
  modify (fun w =>
    {| ui := ui w; toasts := toasts w; dispatched := dispatched w;
       requests := requests w ++ [r]; refreshTimers := refreshTimers w;
       inflight := inflight w; boot := boot w; page := page w |}).

(** [await] of the fetch promise: the response status, with the body for
    a later [json()]. *)
Definition await_fetch {T} (o : FetchOutcome T) : M (Z * option (Body T)) :=
  match o with
  | Rejected => throw
  | Replied s b => ret (s, b)
  end.

(** [await response.json()] and the first property read on its result. *)
Definition json {T} (response : Z * option (Body T)) : M (Body T) :=
  match snd response with
  | Some b => ret b
  | None => throw
  end.

(** [response.ok] *)
Definition ok {T} (response : Z * option (Body T)) : bool :=
  ((200 <=? fst response) && (fst response <=? 299))%Z.

(** [await getCurrentUser()] *)
Definition await_user (u : AuthOutcome) : M (option string) :=
  match u with
  | AuthRejected => throw
  | Anonymous => ret None
  | SignedIn uid => ret (Some uid)
  end.

(** Reading a property of [result.data]: a [TypeError] when [data] is
    [null] or [undefined]. *)
Definition deref {T} (d : option T) : M T :=
  match d with
  | Some x => ret x
  | None => throw
  end.

(** [n?.toFixed(2)]: skipped when there is nothing, a [TypeError]
    ([toFixed] is not a function) for a value that is not a number.  The
    digits are not kept. *)
Definition optional_toFixed (n : OptionalNumber) : M unit :=
  match n with
  | NoValue => ret tt
  | NumberValue _ => ret tt
  | OtherValue _ => throw
  end.

(** ** Formatting *)

(** [formatTime(milliseconds)] *)
Definition formatTime (milliseconds : Js.number) : string :=
  let hours := Js.floor_div milliseconds (1000 * 60 * 60) in
  let minutes := Js.floor_div (Js.rem milliseconds (1000 * 60 * 60)) (1000 * 60) in
  let seconds := Js.floor_div (Js.rem milliseconds (1000 * 60)) 1000 in
  Js.padStart 2 "0" (Js.toString hours) ++ ":" ++
  Js.padStart 2 "0" (Js.toString minutes) ++ ":" ++
  Js.padStart 2 "0" (Js.toString seconds).

Section Widget.

(** The date collaborators: the JavaScript [Date] constructor and
    [date-fns].  A [Date] is represented by its time value, [Js.NaN] for
    an Invalid Date. *)

(** [new Date(s).getTime()] *)
Variable Date_getTime : string -> Js.number.
(** [parseISO(s)]; it returns an Invalid Date for what it cannot read. *)
Variable parseISO : string -> Js.number.
(** [format(d, 'HH:mm:ss')] for a valid date [d]. *)
Variable format_HHmmss : Z -> string.
(** [format(d, 'MMM dd, yyyy')] for a valid date [d]. *)
Variable format_MMMddyyyy : Z -> string.

(** [format(d, 'HH:mm:ss')]: [date-fns] throws a [RangeError] for an
    Invalid Date, which is [None] here. *)
Definition format (d : Js.number) : option string :=
  match d with
  | Js.Num t => Some (format_HHmmss t)
  | Js.NaN => None
  end.

(** [formatActivityTime(timeString)]: [try { ... } catch { return timeString }] *)
Definition formatActivityTime (timeString : string) : string :=
  match format (parseISO timeString) with
  | Some text => text
  | None => timeString
  end.

(** ** The timer effect *)

(** [updateTimer], called at the instant [now = Date.now()]. *)
Definition updateTimer (now : Z) : M unit :=
  fun w =>
    match currentEntry (ui w) with
    | Some e =>
        if Status_eqb (Entry.status e) active then
          let clockInTime := Date_getTime (Entry.clock_in e) in
          let elapsed := Js.sub (Js.Num now) clockInTime in
          setElapsedTime elapsed w
        else
          match Entry.break_start e with
          | Some s =>
              if Status_eqb (Entry.status e) break && Js.truthy (Some s) then
                let breakStartTime := Date_getTime s in
                let breakElapsed := Js.sub (Js.Num now) breakStartTime in
                setBreakTime breakElapsed w
              else ret tt w
          | None => ret tt w
          end
    | None => ret tt w
    end.

(** The condition under which the effect calls [updateTimer] and keeps
    a 1000 ms interval on it: [currentEntry?.status] is ['active'] or
    ['break']. *)
Definition timer_running (h : Hooks) : bool :=
  match currentEntry h with
  | Some e => Status_eqb (Entry.status e) active || Status_eqb (Entry.status e) break
  | None => false
  end.

(** ** The fetchers *)

(** [fetchCurrentEntry], given how its two awaited calls end. *)
Definition fetchCurrentEntry (u : AuthOutcome) (o : FetchOutcome Entry.t) : M unit :=
  try_catch
    (user <- await_user u ;;
     match user with
     | None => ret tt
     | Some _ =>
         fetch POST_get_current ;;
         response <- await_fetch o ;;
         if ok response then
           result <- json response ;;
           setCurrentEntry (data result) ;;
           setIsRealTime true
         else
           setCurrentEntry None
     end)%js
    (setCurrentEntry None).

(** [fetchRecentActivities], given how its awaited calls end. *)
Definition fetchRecentActivities (u : AuthOutcome)
    (o : FetchOutcome (list Activity.t)) : M unit :=
  try_catch
    (user <- await_user u ;;
     match user with
     | None => ret tt
     | Some _ =>
         fetch GET_history ;;
         response <- await_fetch o ;;
         if ok response then
           result <- json response ;;
           if success result then
             match data result with
             | Some entries =>
                 let recentEntries := firstn 3 entries in
                 setRecentActivities recentEntries
             | None => ret tt
             end
           else ret tt
         else ret tt
     end)%js
    (ret tt).

(** ** The mutating handlers *)

(** How a piece of a handler ends: the handler is over, or it waits at
    its next [await]. *)
Inductive Next :=
| Finished
| Suspended (p : Pending).

(** One piece of a handler inside its
    [try { ... } catch { toast.error(fallback) } finally { setIsLoading(false) }]:
    the [finally] block runs when the handler is over, not when it
    waits. *)
Definition guarded (fallback : string) (body : M Next) : World -> World :=
  fun w =>
    match body w with
    | (Ok (Suspended p), w') => with_inflight (cons p) w'
    | (Ok Finished, w') => exec (setIsLoading false) w'
    | (Thrown, w') =>
        exec (toast (toast_error fallback) ;; setIsLoading false)%js w'
    end.

(** [handleClockIn] up to [await getCurrentUser()].  The [isLoading]
    that a handler tests is the constant of the render that made its
    closure. *)
Definition handleClockIn (w : World) : World :=
  if isLoading (page w) then w
  else
    guarded "Failed to clock in"
      (ret (Suspended AwaitUser))
      (exec (setIsLoading true) w).

(** [handleClockIn] from the user to [await fetch(...)]. *)
Definition handleClockIn_user (u : AuthOutcome) : World -> World :=
  guarded "Failed to clock in"
    (user <- await_user u ;;
     match user with
     | None =>
         toast (toast_error "Please log in to clock in") ;;
         ret Finished
     | Some _ =>
         fetch (POST_action ClockIn) ;;
         ret (Suspended (AwaitResponse ClockIn))
     end)%js.

(** [handleClockIn] from the response on. *)
Definition handleClockIn_response (o : FetchOutcome Entry.t) : World -> World :=
  guarded "Failed to clock in"
    (response <- await_fetch o ;;
     result <- json response ;;
     if success result then
       toast (toast_success "Clocked in successfully!") ;;
       setCurrentEntry (data result) ;;
       dispatchEvent "timeTrackingChanged" ;;
       setTimeout_fetchRecentActivities ;;
       ret Finished
     else
       toast (toast_error (Js.or_else (error result) "Failed to clock in")) ;;
       ret Finished)%js.

(** [handleClockOut] up to [await fetch(...)]. *)
Definition handleClockOut (w : World) : World :=
  if isLoading (page w) then w
  else
    guarded "Failed to clock out"
      (fetch (POST_action ClockOut) ;;
       ret (Suspended (AwaitResponse ClockOut)))%js
      (exec (setIsLoading true) w).

(** [handleClockOut] from the response on.  The description of the
    success toast, [result.data.total_hours?.toFixed(2) || '0'], is
    computed before the toast is shown. *)
Definition handleClockOut_response (o : FetchOutcome Entry.t) : World -> World :=
  guarded "Failed to clock out"
    (response <- await_fetch o ;;
     result <- json response ;;
     if success result then
       closed <- deref (data result) ;;
       optional_toFixed (Entry.total_hours closed) ;;
       toast (toast_success "Clocked out successfully!") ;;
       setCurrentEntry None ;;
       setElapsedTime (Js.Num 0) ;;
       setBreakTime (Js.Num 0) ;;
       dispatchEvent "timeTrackingChanged" ;;
       setTimeout_fetchRecentActivities ;;
       ret Finished
     else
       toast (toast_error (Js.or_else (error result) "Failed to clock out")) ;;
       ret Finished)%js.

(** [handleStartBreak] up to [await fetch(...)]. *)
Definition handleStartBreak (w : World) : World :=
  if isLoading (page w) then w
  else
    guarded "Failed to start break"
      (fetch (POST_action StartBreak) ;;
       ret (Suspended (AwaitResponse StartBreak)))%js
      (exec (setIsLoading true) w).

(** [handleStartBreak] from the response on. *)
Definition handleStartBreak_response (o : FetchOutcome Entry.t) : World -> World :=
  guarded "Failed to start break"
    (response <- await_fetch o ;;
     result <- json response ;;
     if success result then
       toast (toast_success "Break started") ;;
       setCurrentEntry (data result) ;;
       setBreakTime (Js.Num 0) ;;
       dispatchEvent "timeTrackingChanged" ;;
       setTimeout_fetchRecentActivities ;;
       ret Finished
     else
       toast (toast_error (Js.or_else (error result) "Failed to start break")) ;;
       ret Finished)%js.

(** [handleEndBreak] up to [await fetch(...)]. *)
Definition handleEndBreak (w : World) : World :=
  if isLoading (page w) then w
  else
    guarded "Failed to end break"
      (fetch (POST_action EndBreak) ;;
       ret (Suspended (AwaitResponse EndBreak)))%js
      (exec (setIsLoading true) w).

(** [handleEndBreak] from the response on. *)
Definition handleEndBreak_response (o : FetchOutcome Entry.t) : World -> World :=
  guarded "Failed to end break"
    (response <- await_fetch o ;;
     result <- json response ;;
     if success result then
       toast (toast_success "Break ended") ;;
       setCurrentEntry (data result) ;;
       setBreakTime (Js.Num 0) ;;
       dispatchEvent "timeTrackingChanged" ;;
       setTimeout_fetchRecentActivities ;;
       ret Finished
     else
       toast (toast_error (Js.or_else (error result) "Failed to end break")) ;;
       ret Finished)%js.

(** The handler of an operation, and what follows its response. *)
Definition handle (op : Op) : World -> World :=
  match op with
  | ClockIn => handleClockIn
  | ClockOut => handleClockOut
  | StartBreak => handleStartBreak
  | EndBreak => handleEndBreak
  end.

Definition handle_response (op : Op) : FetchOutcome Entry.t -> World -> World :=
  match op with
  | ClockIn => handleClockIn_response
  | ClockOut => handleClockOut_response
  | StartBreak => handleStartBreak_response
  | EndBreak => handleEndBreak_response
  end.

(** ** What the JSX shows *)

Inductive Badge := Badge_Active | Badge_OnBreak | Badge_Completed.

(** [getStatusBadge()] *)
Definition getStatusBadge (h : Hooks) : option Badge :=
  match currentEntry h with
  | None => None
  | Some e =>
      match Entry.status e with
      | active => Some Badge_Active
      | break => Some Badge_OnBreak
      | completed => Some Badge_Completed
      end
  end.

(** The line under the title: the badge with [Since <clock-in time>], or
    [Ready to clock in]. *)
Inductive HeaderLine :=
| Since (badge : option Badge) (time : string)
| ReadyToClockIn.

Definition header_line (h : Hooks) : HeaderLine :=
  match currentEntry h with
  | Some e => Since (getStatusBadge h) (formatActivityTime (Entry.clock_in e))
  | None => ReadyToClockIn
  end.

(** The action buttons, each with its [disabled] attribute. *)
Inductive Button :=
| ClockOutButton (disabled : bool)
| ClockInButton (disabled : bool).

Definition action_buttons (h : Hooks) : list Button :=
  match currentEntry h with
  | Some e =>
      if Status_eqb (Entry.status e) active
      then [ClockOutButton (isLoading h)]
      else []
  | None => [ClockInButton (isLoading h)]
  end.

(** The real-time timer: its text and its caption. *)
Record TimerPanel := {
  timer_text : string;
  timer_caption : string
}.

Definition timer_panel (h : Hooks) : option TimerPanel :=
  match currentEntry h with
  | Some e =>
      Some {| timer_text :=
                if Status_eqb (Entry.status e) break
                then formatTime (breakTime h)
                else formatTime (elapsedTime h);
              timer_caption :=
                if Status_eqb (Entry.status e) break
                then "Break Time"
                else "Work Time" |}
  | None => None
  end.

(** The activities that get a row: [recentActivities.slice(0, 3)] (the
    formatting of a row is not part of this development). *)
Definition history_rows (h : Hooks) : list Activity.t :=
  firstn 3 (recentActivities h).

(** [formatActivityDuration(clockIn, clockOut)].  [parseISO] and
    [getTime] do not throw on strings, so the [catch] block with its
    ['Unknown'] is never entered. *)
Definition formatActivityDuration (clockIn : string) (clockOut : option string)
    : string :=
  match clockOut with
  | Some out =>
      if negb (Js.truthy (Some out)) then "In Progress"
      else
        let start := parseISO clockIn in
        let finish := parseISO out in
        let durationMs := Js.sub finish start in
        let hours := Js.floor_div durationMs (1000 * 60 * 60) in
        let minutes := Js.floor_div (Js.rem durationMs (1000 * 60 * 60)) (1000 * 60) in
        let seconds := Js.floor_div (Js.rem durationMs (1000 * 60)) 1000 in
        Js.padStart 2 "0" (Js.toString hours) ++ ":" ++
        Js.padStart 2 "0" (Js.toString minutes) ++ ":" ++
        Js.padStart 2 "0" (Js.toString seconds)
  | None => "In Progress"
  end.

(** One row of the recent-attendance list. *)
Record Row := {
  row_date : string;
  row_kind : string;
  row_times : string;
  row_total : string
}.

(** The caption under the date of a row. *)
Definition session_kind (s : Status) : string :=
  match s with
  | completed => "Work Session"
  | active => "Active Session"
  | break => "Break Session"
  end.

(** The JSX of one row; [None] when it throws, which is when
    [format(parseISO(activity.date), 'MMM dd, yyyy')] gets an Invalid
    Date. *)
Definition activity_row (activity : Activity.t) : option Row :=
  match parseISO (Activity.date activity) with
  | Js.Num d =>
      Some {| row_date := format_MMMddyyyy d;
              row_kind := session_kind (Activity.status activity);
              row_times :=
                formatActivityTime (Activity.clock_in activity) ++
                match Activity.clock_out activity with
                | Some out =>
                    if Js.truthy (Some out)
                    then " - " ++ formatActivityTime out
                    else ""
                | None => ""
                end;
              row_total :=
                "Total: " ++ formatActivityDuration (Activity.clock_in activity)
                                                    (Activity.clock_out activity) |}
  | Js.NaN => None
  end.

(** [activities.map(row)]: the first row that throws ends the map. *)
Fixpoint activity_rows (activities : list Activity.t) : option (list Row) :=
  match activities with
  | [] => Some []
  | activity :: rest =>
      match activity_row activity with
      | Some row => option_map (cons row) (activity_rows rest)
      | None => None
      end
  end.

(** The recent-attendance part of the page: the rows of
    [recentActivities.slice(0, 3)] (no row stands for the
    [No recent attendance records] text), [None] when rendering throws. *)
Definition render_history (h : Hooks) : option (list Row) :=
  activity_rows (history_rows h).

Record Content := {
  live : bool;
  header : HeaderLine;
  buttons : list Button;
  timer : option TimerPanel;
  history : list Activity.t
}.

(** What a render gives: the skeleton, the content, or nothing because
    it throws. *)
Inductive View :=
| Skeleton
| Shown (c : Content)
| RenderThrows.

(** [content = isLoading ? <skeleton> : <> ... </>]; evaluating the
    content throws when a row of the history does. *)
Definition render (h : Hooks) : View :=
  if isLoading h then Skeleton
  else
    match render_history h with
    | Some _ =>
        Shown {| live := isRealTime h;
                 header := header_line h;
                 buttons := action_buttons h;
                 timer := timer_panel h;
                 history := history_rows h |}
    | None => RenderThrows
    end.

Definition Button_eqb (a b : Button) : bool :=
  match a, b with
  | ClockOutButton x, ClockOutButton y => Bool.eqb x y
  | ClockInButton x, ClockInButton y => Bool.eqb x y
  | _, _ => false
  end.

Definition disabled_of (b : Button) : bool :=
  match b with
  | ClockOutButton d => d
  | ClockInButton d => d
  end.

(** A button can be clicked when it is on the page and not disabled. *)
Definition clickable (b : Button) (h : Hooks) : bool :=
  match render h with
  | Skeleton => false
  | Shown c => existsb (Button_eqb b) (buttons c) && negb (disabled_of b)
  | RenderThrows => false
  end.

(** [onClick] *)
Definition onClick (b : Button) : World -> World :=
  match b with
  | ClockOutButton _ => handleClockOut
  | ClockInButton _ => handleClockIn
  end.

(** ** The widget as a transition system *)

Definition Pending_eqb (a b : Pending) : bool :=
  match a, b with
  | AwaitUser, AwaitUser => true
  | AwaitResponse ClockIn, AwaitResponse ClockIn => true
  | AwaitResponse ClockOut, AwaitResponse ClockOut => true
  | AwaitResponse StartBreak, AwaitResponse StartBreak => true
  | AwaitResponse EndBreak, AwaitResponse EndBreak => true
  | _, _ => false
  end.

(** Take one suspended handler out of the waiting ones. *)
Fixpoint resume (p : Pending) (l : list Pending) : option (list Pending) :=
  match l with
  | [] => None
  | q :: rest =>
      if Pending_eqb p q then Some rest
      else option_map (cons q) (resume p rest)
  end.

(** What can happen to a mounted widget. *)
Inductive Event :=
| InitUser (u : AuthOutcome)
| InitCurrent (u : AuthOutcome) (o : FetchOutcome Entry.t)
| InitActivities (u : AuthOutcome) (o : FetchOutcome (list Activity.t))
| InitTimeout
| Click (b : Button)
| Call (op : Op)
| UserSettled (u : AuthOutcome)
| ResponseSettled (op : Op) (o : FetchOutcome Entry.t)
| Refresh (u : AuthOutcome) (o : FetchOutcome (list Activity.t))
| Tick (now : Z)
| Render.

(** The state right after the first render. *)
Definition mount : World :=
  {| ui := {| currentEntry := None; recentActivities := [];
              isLoading := true; elapsedTime := Js.Num 0;
              breakTime := Js.Num 0; isRealTime := false |};
     toasts := []; dispatched := []; requests := [];
     refreshTimers := 0; inflight := []; boot := BootAuth;
     page := {| currentEntry := None; recentActivities := [];
                isLoading := true; elapsedTime := Js.Num 0;
                breakTime := Js.Num 0; isRealTime := false |} |}.

(** [initializeWidget] after one of its two fetchers is done: when both
    are, [Promise.all] resolves and the 150 ms timeout is set. *)
Definition fetcher_done (currentDone activitiesDone : bool) : World -> World :=
  with_boot (if currentDone && activitiesDone
             then BootDelay
             else BootFetching currentDone activitiesDone).

Definition take_refreshTimer (w : World) : World :=
  {| ui := ui w; toasts := toasts w; dispatched := dispatched w;
     requests := requests w; refreshTimers := Nat.pred (refreshTimers w);
     inflight := inflight w; boot := boot w; page := page w |}.

(** One event; [None] when the event cannot happen in this state.
    - [InitUser]: [initializeWidget]'s own [await getCurrentUser()]; a
      rejection ends [initializeWidget].
    - [InitCurrent], [InitActivities]: one of the two fetchers of
      [Promise.all] completes.
    - [InitTimeout]: [setTimeout(() => setIsLoading(false), 150)] fires.
    - [Click]: the user clicks a button of the page, the one of the last
      committed render.
    - [Call]: a handler of the last committed render is called, from
      wherever.
    - [UserSettled], [ResponseSettled]: a suspended handler goes on.
    - [Refresh]: a 1000 ms timer fires and its [fetchRecentActivities]
      completes.
    - [Tick]: the timer effect runs [updateTimer], when it is set up or
      when its interval fires.  The effect is the one that the render of
      the current [currentEntry] sets up; a last tick of the interval of
      the render before is not followed.
    - [Render]: React commits a render of the current state; until then
      the page and its handlers are those of the render before. *)
Definition step (ev : Event) (w : World) : option World :=
  match ev with
  | InitUser u =>
      match boot w, u with
      | BootAuth, AuthRejected => Some (with_boot BootFailed w)
      | BootAuth, _ => Some (with_boot (BootFetching false false) w)
      | _, _ => None
      end
  | InitCurrent u o =>
      match boot w with
      | BootFetching false a =>
          Some (fetcher_done true a (exec (fetchCurrentEntry u o) w))
      | _ => None
      end
  | InitActivities u o =>
      match boot w with
      | BootFetching c false =>
          Some (fetcher_done c true (exec (fetchRecentActivities u o) w))
      | _ => None
      end
  | InitTimeout =>
      match boot w with
      | BootDelay => Some (with_boot Booted (exec (setIsLoading false) w))
      | _ => None
      end
  | Click b =>
      if clickable b (page w) then Some (onClick b w) else None
  | Call op => Some (handle op w)
  | UserSettled u =>
      match resume AwaitUser (inflight w) with
      | Some rest => Some (handleClockIn_user u (with_inflight (fun _ => rest) w))
      | None => None
      end
  | ResponseSettled op o =>
      match resume (AwaitResponse op) (inflight w) with
      | Some rest => Some (handle_response op o (with_inflight (fun _ => rest) w))
      | None => None
      end
  | Refresh u o =>
      match refreshTimers w with
      | S _ => Some (exec (fetchRecentActivities u o) (take_refreshTimer w))
      | O => None
      end
  | Tick now =>
      if timer_running (ui w) then Some (exec (updateTimer now) w) else None
  | Render => Some (commit w)
  end.

(** A run of events. *)
Fixpoint run (evs : list Event) (w : World) : option World :=
  match evs with
  | [] => Some w
  | ev :: rest =>
      match step ev w with
      | Some w' => run rest w'
      | None => None
      end
  end.

(** The states a mounted widget can be in. *)
Inductive reachable : World -> Prop :=
| reachable_mount : reachable mount
| reachable_step : forall ev w w',
    reachable w -> step ev w = Some w' -> reachable w'.


(** ** Notions the properties are stated with *)

(** Whether the parsed response of a mutating request reports success. *)
Definition reports_success (o : FetchOutcome Entry.t) : bool :=
  match o with
  | Replied _ (Some result) => success result
  | _ => false
  end.

(** The [data] of the parsed response, if there is a response body. *)
Definition returned_data (o : FetchOutcome Entry.t) : option Entry.t :=
  match o with
  | Replied _ (Some result) => data result
  | _ => None
  end.

(** The widget after the timer effect has run [updateTimer] at each of
    the given instants. *)
Definition ticks (nows : list Z) (w : World) : World :=
  fold_left (fun w now => exec (updateTimer now) w) nows w.

(** The outcomes of [fetchCurrentEntry] that mean "no open session":
    nobody is signed in, the response status is 404 or 401, or one of the
    awaited calls throws. *)
Inductive no_session_outcome : AuthOutcome -> FetchOutcome Entry.t -> Prop :=
| no_user : forall o, no_session_outcome Anonymous o
| status_404 : forall uid body, no_session_outcome (SignedIn uid) (Replied 404 body)
| status_401 : forall uid body, no_session_outcome (SignedIn uid) (Replied 401 body)
| user_throws : forall o, no_session_outcome AuthRejected o
| fetch_throws : forall uid, no_session_outcome (SignedIn uid) Rejected
| json_throws : forall uid s, no_session_outcome (SignedIn uid) (Replied s None).

(** [fetchCurrentEntry] has not completed yet. *)
Definition current_pending (b : Boot) : bool :=
  match b with
  | BootAuth | BootFetching false _ => true
  | _ => false
  end.

(** Until the mount sequence is over the widget is busy, no handler is
    under way and no toast has been shown; until [fetchCurrentEntry] has
    completed there is no local session. *)
Definition mounting_inv (w : World) : Prop :=
  boot w = Booted \/
  (isLoading (ui w) = true /\ inflight w = [] /\ toasts w = [] /\
   (current_pending (boot w) = true -> currentEntry (ui w) = None) /\
   isLoading (page w) = true).

(** After [fetchCurrentEntry] has completed without a session, and until
    the mount sequence is over, there is still none. *)
Definition no_session_inv (w : World) : Prop :=
  boot w = Booted \/
  (isLoading (ui w) = true /\ inflight w = [] /\ toasts w = [] /\
   currentEntry (ui w) = None /\ current_pending (boot w) = false /\
   boot w <> BootFailed /\ isLoading (page w) = true).

(** ** The rest of the component *)

(** [a > 0] *)
Definition is_positive (a : Js.number) : bool :=
  match a with
  | Js.Num x => (0 <? x)%Z
  | Js.NaN => false
  end.

(** [formatDetailedTime(milliseconds)] *)
Definition formatDetailedTime (milliseconds : Js.number) : string :=
  let hours := Js.floor_div milliseconds (1000 * 60 * 60) in
  let minutes := Js.floor_div (Js.rem milliseconds (1000 * 60 * 60)) (1000 * 60) in
  let seconds := Js.floor_div (Js.rem milliseconds (1000 * 60)) 1000 in
  if is_positive hours then
    Js.toString hours ++ "h " ++ Js.toString minutes ++ "m " ++
    Js.toString seconds ++ "s"
  else if is_positive minutes then
    Js.toString minutes ++ "m " ++ Js.toString seconds ++ "s"
  else
    Js.toString seconds ++ "s".

(** Events that come from the page and its collaborators, not from a
    direct call of a handler. *)
Definition from_page (ev : Event) : bool :=
  match ev with
  | Call _ => false
  | _ => true
  end.

Definition is_break_op (op : Op) : bool :=
  match op with
  | StartBreak | EndBreak => true
  | _ => false
  end.

Definition is_break_request (r : Request) : bool :=
  match r with
  | POST_action op => is_break_op op
  | _ => false
  end.

Definition is_break_pending (p : Pending) : bool :=
  match p with
  | AwaitResponse op => is_break_op op
  | AwaitUser => false
  end.

(** The text of the error toast of a handler when the server gives none. *)
Definition fallback (op : Op) : string :=
  match op with
  | ClockIn => "Failed to clock in"
  | ClockOut => "Failed to clock out"
  | StartBreak => "Failed to start break"
  | EndBreak => "Failed to end break"
  end.

(** Whether a string is two decimal digits. *)
Definition two_digits (s : string) : bool :=
  match s with
  | String c (String d EmptyString) =>
      ((48 <=? nat_of_ascii c) && (nat_of_ascii c <=? 57) &&
       (48 <=? nat_of_ascii d) && (nat_of_ascii d <=? 57))%nat
  | _ => false
  end.

(** A field of [formatTime]: [n.toString().padStart(2, '0')]. *)
Definition field (n : Z) : string :=
  Js.padStart 2 "0" (Js.toString (Js.Num n)).

(** A widget that has not done anything yet. *)
Definition pristine (w : World) : Prop :=
  ui w = ui mount /\ toasts w = [] /\ dispatched w = [] /\ requests w = [] /\
  refreshTimers w = 0%nat /\ inflight w = [] /\ page w = ui mount.

(** No start-break or end-break request has been sent, and no handler
    waits for the response of one. *)
Definition no_break_traffic (w : World) : Prop :=
  Forall (fun r => is_break_request r = false) (requests w) /\
  Forall (fun p => is_break_pending p = false) (inflight w).

End Widget.

(** ** A date collaborator to run the widget with

    [IsoSample] reads exactly the form that [Date.prototype.toISOString]
    writes, [YYYY-MM-DDTHH:mm:ss.sssZ], and takes every other string for
    an Invalid Date; it prints times of day in UTC.  The properties below
    hold for every date collaborator; this one serves to evaluate the
    widget on concrete sessions. *)

Module IsoSample.

Definition digit (c : ascii) : option Z :=
  let n := nat_of_ascii c in
  if ((48 <=? n) && (n <=? 57))%nat then Some (Z.of_nat (n - 48)) else None.

(** The number written with [len] digits from position [i] on. *)
Fixpoint number_at (s : string) (i len : nat) (acc : Z) : option Z :=
  match len with
  | O => Some acc
  | S k =>
      match String.get i s with
      | Some c =>
          match digit c with
          | Some d => number_at s (S i) k (acc * 10 + d)
          | None => None
          end
      | None => None
      end
  end.

Definition char_at (s : string) (i : nat) (c : ascii) : bool :=
  match String.get i s with
  | Some x => Ascii.eqb x c
  | None => false
  end.

Definition leap (y : Z) : bool :=
  ((y mod 4 =? 0) && negb (y mod 100 =? 0) || (y mod 400 =? 0))%Z.

Definition days_in_month (y m : Z) : Z :=
  if (m =? 2)%Z then (if leap y then 29 else 28)
  else if ((m =? 4) || (m =? 6) || (m =? 9) || (m =? 11))%Z then 30
  else 31.

(** Days from 1970-01-01 to the given civil date. *)
Definition days_from_civil (y m d : Z) : Z :=
  let y' := if (m <=? 2)%Z then y - 1 else y in
  let era := y' / 400 in
  let yoe := y' - era * 400 in
  let mp := (m + 9) mod 12 in
  let doy := (153 * mp + 2) / 5 + d - 1 in
  let doe := yoe * 365 + yoe / 4 - yoe / 100 + doy in
  era * 146097 + doe - 719468.

Definition time_value (s : string) : Js.number :=
  match number_at s 0 4 0, number_at s 5 2 0, number_at s 8 2 0,
        number_at s 11 2 0, number_at s 14 2 0, number_at s 17 2 0,
        number_at s 20 3 0 with
  | Some y, Some mo, Some d, Some h, Some mi, Some sec, Some ms =>
      if (String.length s =? 24)%nat
         && char_at s 4 "-" && char_at s 7 "-" && char_at s 10 "T"
         && char_at s 13 ":" && char_at s 16 ":" && char_at s 19 "."
         && char_at s 23 "Z"
         && ((1 <=? mo) && (mo <=? 12) && (1 <=? d) && (d <=? days_in_month y mo)
             && (h <=? 23) && (mi <=? 59) && (sec <=? 59))%Z
      then Js.Num ((((days_from_civil y mo d * 24 + h) * 60 + mi) * 60 + sec) * 1000 + ms)
      else Js.NaN
  | _, _, _, _, _, _, _ => Js.NaN
  end.

Definition two (n : Z) : string :=
  Js.padStart 2 "0" (Js.toString (Js.Num n)).

Definition time_of_day (t : Z) : string :=
  two ((t / 3600000) mod 24) ++ ":" ++ two ((t / 60000) mod 60) ++ ":" ++
  two ((t / 1000) mod 60).

End IsoSample.

(** ** Sample sessions *)

Definition sample_entry (clock_in : string) (break_start : option string)
    (status : Status) : Entry.t :=
  {| Entry.id := "e-1"; Entry.clock_in := clock_in; Entry.clock_out := None;
     Entry.break_start := break_start; Entry.break_end := None;
     Entry.status := status; Entry.location := None;
     Entry.total_hours := NoValue; Entry.break_duration := 0%Q |}.

Definition sample_activity (id : string) : Activity.t :=
  {| Activity.id := id; Activity.clock_in := "2024-01-15T09:00:00.000Z";
     Activity.clock_out := Some "2024-01-15T17:00:00.000Z";
     Activity.total_hours := Some 8%Q; Activity.status := completed;
     Activity.date := "2024-01-15T00:00:00.000Z" |}.

(** A booted widget that holds the session [e], is not busy and has
    rendered that. *)
Definition world_with (e : option Entry.t) : World :=
  {| ui := {| currentEntry := e; recentActivities := [];
              isLoading := false; elapsedTime := Js.Num 0;
              breakTime := Js.Num 0; isRealTime := true |};
     toasts := []; dispatched := []; requests := [];
     refreshTimers := 0; inflight := []; boot := Booted;
     page := {| currentEntry := e; recentActivities := [];
                isLoading := false; elapsedTime := Js.Num 0;
                breakTime := Js.Num 0; isRealTime := true |} |}.

Definition nine : string := "2024-01-15T09:00:00.000Z".

Definition signed_in : AuthOutcome := SignedIn "u-1".

(** A booted widget whose handler for [op] waits for its response, with
    the work timer at 5 s. *)
Definition world_awaiting (op : Op) (e : option Entry.t) : World :=
  {| ui := {| currentEntry := e; recentActivities := [];
              isLoading := true; elapsedTime := Js.Num 5000;
              breakTime := Js.Num 0; isRealTime := true |};
     toasts := []; dispatched := []; requests := [POST_action op];
     refreshTimers := 0; inflight := []; boot := Booted;
     page := {| currentEntry := e; recentActivities := [];
                isLoading := true; elapsedTime := Js.Num 5000;
                breakTime := Js.Num 0; isRealTime := true |} |}.

Definition four_activities : list Activity.t :=
  [sample_activity "a-4"; sample_activity "a-3"; sample_activity "a-2";
   sample_activity "a-1"].

(** Mounting with nobody clocked in, the render that follows, then a
    click on the clock-in button whose request is on its way. *)
Definition clock_in_run : list Event :=
  [InitUser signed_in;
   InitCurrent signed_in
     (Replied 200 (Some {| success := true; data := None; error := None |}));
   InitActivities signed_in
     (Replied 200 (Some {| success := true; data := Some four_activities;
                           error := None |}));
   InitTimeout;
   Render;
   Click (ClockInButton false);
   UserSettled signed_in].

Definition world_clocking_in : World :=
  {| ui := {| currentEntry := None;
              recentActivities :=
                [sample_activity "a-4"; sample_activity "a-3"; sample_activity "a-2"];
              isLoading := true; elapsedTime := Js.Num 0;
              breakTime := Js.Num 0; isRealTime := true |};
     toasts := []; dispatched := [];
     requests := [POST_get_current; GET_history; POST_action ClockIn];
     refreshTimers := 0; inflight := [AwaitResponse ClockIn]; boot := Booted;
     page := {| currentEntry := None;
                recentActivities :=
                  [sample_activity "a-4"; sample_activity "a-3"; sample_activity "a-2"];
                isLoading := false; elapsedTime := Js.Num 0;
                breakTime := Js.Num 0; isRealTime := true |} |}.

(** A stand-in for [format(d, 'MMM dd, yyyy')] that prints the number of
    the day since 1970-01-01. *)
Definition day_number (t : Z) : string :=
  Js.toString (Js.Num (t / 86400000)).

(** An activity whose [date] cannot be parsed. *)
Definition undated_activity : Activity.t :=
  {| Activity.id := "a-0"; Activity.clock_in := "2024-01-15T09:00:00.000Z";
     Activity.clock_out := None; Activity.total_hours := None;
     Activity.status := active; Activity.date := "last Monday" |}.

(** The state cells of a mounted widget with the given history. *)
Definition hooks_with (activities : list Activity.t) : Hooks :=
  {| currentEntry := None; recentActivities := activities;
     isLoading := false; elapsedTime := Js.Num 0;
     breakTime := Js.Num 0; isRealTime := true |}.


(** ** The collaborator and the formatter on examples *)

Example IsoSample_epoch :
  IsoSample.time_value "1970-01-01T00:00:00.000Z" = Js.Num 0.
Proof. reflexivity. Qed.

Example IsoSample_morning :
  IsoSample.time_value "2024-01-15T09:00:05.250Z" = Js.Num 1705309205250 /\
  IsoSample.time_of_day 1705309205250 = "09:00:05".
Proof. split; reflexivity. Qed.

Example IsoSample_rejects :
  IsoSample.time_value "yesterday at nine" = Js.NaN /\
  IsoSample.time_value "2024-02-30T09:00:00.000Z" = Js.NaN.
Proof. split; reflexivity. Qed.

Example formatTime_values :
  formatTime (Js.Num 0) = "00:00:00" /\
  formatTime (Js.Num 5000) = "00:00:05" /\
  formatTime (Js.Num 3725999) = "01:02:05" /\
  formatTime (Js.Num 360000000) = "100:00:00" /\
  formatTime (Js.Num (-1)) = "-1:-1:-1" /\
  formatTime Js.NaN = "NaN:NaN:NaN".
Proof. repeat split; reflexivity. Qed.

(** ** Properties *)

Lemma formatTime_fields (ms : Z) :
  0 <= ms ->
  formatTime (Js.Num ms)
  = field (ms / 1000 / 3600) ++ ":" ++ field (ms / 1000 / 60 mod 60) ++ ":" ++
    field (ms / 1000 mod 60).
Proof.
  intros Hms. unfold formatTime, field. cbn [Js.floor_div Js.rem].
  rewrite !Z.rem_mod_nonneg by lia.
  replace (ms / (1000 * 60 * 60)) with (ms / 1000 / 3600)
    by (rewrite Z.div_div by lia; reflexivity).
  replace (ms mod (1000 * 60 * 60) / (1000 * 60)) with (ms / 1000 / 60 mod 60)
    by (change (1000 * 60 * 60) with 3600000; change (1000 * 60) with 60000;
        Z.to_euclidean_division_equations; lia).
  replace (ms mod (1000 * 60) / 1000) with (ms / 1000 mod 60)
    by (change (1000 * 60) with 60000;
        Z.to_euclidean_division_equations; lia).
  reflexivity.
Qed.

Lemma field_two_digits (n : Z) :
  0 <= n < 100 -> two_digits (field n) = true.
Proof.
  intros Hn.
  assert (Hall : forallb (fun k => two_digits (field (Z.of_nat k))) (seq 0 100) = true)
    by (vm_compute; reflexivity).
  rewrite forallb_forall in Hall.
  rewrite <- (Z2Nat.id n) by lia.
  apply Hall. apply in_seq. lia.
Qed.

Section Properties.

Variable Date_getTime : string -> Js.number.
Variable parseISO : string -> Js.number.
Variable format_HHmmss : Z -> string.
Variable format_MMMddyyyy : Z -> string.

Local Abbreviation step' :=
  (step Date_getTime parseISO format_HHmmss format_MMMddyyyy).
Local Abbreviation run' :=
  (run Date_getTime parseISO format_HHmmss format_MMMddyyyy).
Local Abbreviation reachable' :=
  (reachable Date_getTime parseISO format_HHmmss format_MMMddyyyy).
Local Abbreviation updateTimer' := (updateTimer Date_getTime).
Local Abbreviation render_history' :=
  (render_history parseISO format_HHmmss format_MMMddyyyy).
Local Abbreviation clickable' :=
  (clickable parseISO format_HHmmss format_MMMddyyyy).
Local Abbreviation header_line' := (header_line parseISO format_HHmmss).
Local Abbreviation render' := (render parseISO format_HHmmss format_MMMddyyyy).
Local Abbreviation ticks' := (ticks Date_getTime).

(** C3: after a clock-out request whose response reports success with a
    session as its data (a [total_hours] that is absent or a number, as
    the interface has it), the local current session is none, both timers
    are zero (they read 00:00:00) and the timer effect is at rest; after
    a clock-out request whose response reports failure, or that throws,
    the local current session is unchanged. *)
Theorem clock_out_response_outcome :
  (forall (w : World) (s : Z) (closed : Entry.t) (err : option string),
     (forall json, Entry.total_hours closed <> OtherValue json) ->
     let w' := handleClockOut_response
                 (Replied s (Some {| success := true; data := Some closed;
                                     error := err |})) w in
     currentEntry (ui w') = None /\
     elapsedTime (ui w') = Js.Num 0 /\ breakTime (ui w') = Js.Num 0 /\
     formatTime (elapsedTime (ui w')) = "00:00:00" /\
     formatTime (breakTime (ui w')) = "00:00:00" /\
     timer_running (ui w') = false) /\
  (forall (w : World) (s : Z) (d : option Entry.t) (err : option string),
     currentEntry (ui (handleClockOut_response
                         (Replied s (Some {| success := false; data := d;
                                             error := err |})) w))
     = currentEntry (ui w)) /\
  (forall (w : World) (s : Z),
     currentEntry (ui (handleClockOut_response Rejected w)) = currentEntry (ui w) /\
     currentEntry (ui (handleClockOut_response (Replied s None) w))
     = currentEntry (ui w)).
Proof.
  split; [| split].
  - intros w s closed err Hnumber; cbv zeta.
    unfold handleClockOut_response, guarded, bind; simpl.
    destruct (Entry.total_hours closed) as [| q | json] eqn:Hhours; simpl.
    + repeat split.
    + repeat split.
    + exfalso. exact (Hnumber json eq_refl).
  - intros w s d err. reflexivity.
  - intros w s. split; reflexivity.
Qed.

(** C5: after a clock-in request whose response reports success, the
    local current session is the session the server returned and the
    change notification has been dispatched; after a clock-in request
    whose response reports failure, or that throws, an error toast is
    shown, the local current session is unchanged and nothing is
    dispatched. *)
Theorem clock_in_response_outcome (w : World) (o : FetchOutcome Entry.t) :
  (reports_success o = true ->
     currentEntry (ui (handleClockIn_response o w)) = returned_data o /\
     dispatched (handleClockIn_response o w)
     = (dispatched w ++ ["timeTrackingChanged"])%list) /\
  (reports_success o = false ->
     (exists message,
        toasts (handleClockIn_response o w)
        = (toasts w ++ [toast_error message])%list) /\
     currentEntry (ui (handleClockIn_response o w)) = currentEntry (ui w) /\
     dispatched (handleClockIn_response o w) = dispatched w).
Proof.
  destruct o as [| s [[flag d err] |]]; simpl; split; intros H;
    try discriminate; subst.
  - repeat split. now exists "Failed to clock in".
  - repeat split.
  - repeat split. now exists (Js.or_else err "Failed to clock in").
  - repeat split. now exists "Failed to clock in".
Qed.

Lemma ticks_on_break (nows : list Z) :
  forall (w : World) (e : Entry.t),
    currentEntry (ui w) = Some e -> Entry.status e = break ->
    run' (map Tick nows) w = Some (ticks' nows w) /\
    currentEntry (ui (ticks' nows w)) = Some e /\
    elapsedTime (ui (ticks' nows w)) = elapsedTime (ui w).
Proof.
  induction nows as [| now rest IH]; intros w e Hcur Hst.
  - simpl. auto.
  - assert (Hstep : step' (Tick now) w = Some (exec (updateTimer' now) w)).
    { simpl. unfold timer_running. rewrite Hcur, Hst. reflexivity. }
    assert (Hkeep : currentEntry (ui (exec (updateTimer' now) w)) = Some e /\
                    elapsedTime (ui (exec (updateTimer' now) w)) = elapsedTime (ui w)).
    { unfold exec, updateTimer. rewrite Hcur, Hst. simpl.
      destruct (Entry.break_start e) as [[| c s] |]; simpl; auto. }
    destruct Hkeep as [Hcur' Hel'].
    destruct (IH _ _ Hcur' Hst) as (Hrun & Hc & Hel).
    change (map Tick (now :: rest)) with (Tick now :: map Tick rest).
    cbn [run]. rewrite Hstep. cbn [ticks fold_left].
    fold (ticks' rest (exec (updateTimer' now) w)).
    repeat split; [exact Hrun | exact Hc | congruence].
Qed.

(** C9: when a start-break request succeeds with a session whose status
    is [break], the break timer is zero (it reads 00:00:00), and the work
    elapsed-time value is what it was: however often the timer ticks
    during the break, it ticks, the session stays, and the work value
    does not move. *)
Theorem start_break_freezes_work_timer
    (w : World) (s : Z) (e : Entry.t) (err : option string) :
  Entry.status e = break ->
  let w' := handleStartBreak_response
              (Replied s (Some {| success := true; data := Some e;
                                  error := err |})) w in
  currentEntry (ui w') = Some e /\
  breakTime (ui w') = Js.Num 0 /\
  formatTime (breakTime (ui w')) = "00:00:00" /\
  elapsedTime (ui w') = elapsedTime (ui w) /\
  forall nows : list Z,
    run' (map Tick nows) w' = Some (ticks' nows w') /\
    currentEntry (ui (ticks' nows w')) = Some e /\
    elapsedTime (ui (ticks' nows w')) = elapsedTime (ui w).
Proof.
  intros Hst w'.
  assert (Hcur : currentEntry (ui w') = Some e) by reflexivity.
  assert (Hel : elapsedTime (ui w') = elapsedTime (ui w)) by reflexivity.
  repeat split; try reflexivity;
    destruct (ticks_on_break nows w' e Hcur Hst) as (Hrun & Hc & He);
    [exact Hrun | exact Hc | congruence].
Qed.

(** C10: when the current-session fetch gets an HTTP-ok response, the
    [data] of the body becomes the local current session whatever the
    [success] flag of the body says, in particular when it says [false]. *)
Theorem current_fetch_ignores_success_flag
    (w : World) (uid : string) (s : Z) (flag : bool)
    (d : option Entry.t) (err : option string) :
  200 <= s <= 299 ->
  currentEntry
    (ui (exec (fetchCurrentEntry (SignedIn uid)
                 (Replied s (Some {| success := flag; data := d; error := err |})))
              w)) = d.
Proof.
  intros Hs. unfold exec, fetchCurrentEntry, try_catch, bind; simpl.
  unfold ok; simpl.
  replace (200 <=? s)%Z with true by (symmetry; apply Z.leb_le; lia).
  replace (s <=? 299)%Z with true by (symmetry; apply Z.leb_le; lia).
  reflexivity.
Qed.

(** C8: when the history endpoint answers with a list of entries, of
    whatever length, the retained recent-activity list is the first three
    of them in the order received; and the history on the page has never
    more than three rows, whatever the state is. *)
Theorem recent_activities_first_three :
  (forall (w : World) (uid : string) (s : Z) (entries : list Activity.t)
          (err : option string),
     200 <= s <= 299 ->
     let w' := exec (fetchRecentActivities (SignedIn uid)
                       (Replied s (Some {| success := true; data := Some entries;
                                           error := err |}))) w in
     recentActivities (ui w') = firstn 3 entries /\
     (length (recentActivities (ui w')) <= 3)%nat /\
     history_rows (ui w') = firstn 3 entries) /\
  (forall h : Hooks,
     (length (history_rows h) <= 3)%nat /\
     exists rest, recentActivities h = (history_rows h ++ rest)%list).
Proof.
  split.
  - intros w uid s entries err Hs w'.
    assert (Hrec : recentActivities (ui w') = firstn 3 entries).
    { unfold w', exec, fetchRecentActivities, try_catch, bind; simpl.
      unfold ok; simpl.
      replace (200 <=? s)%Z with true by (symmetry; apply Z.leb_le; lia).
      replace (s <=? 299)%Z with true by (symmetry; apply Z.leb_le; lia).
      reflexivity. }
    unfold history_rows. rewrite Hrec. repeat split.
    + apply firstn_le_length.
    + rewrite firstn_firstn. reflexivity.
  - intros h. unfold history_rows. split.
    + apply firstn_le_length.
    + exists (skipn 3 (recentActivities h)). symmetry. apply firstn_skipn.
Qed.

Lemma render_not_loading (h : Hooks) :
  isLoading h = false -> render_history' h <> None ->
  render' h = Shown {| live := isRealTime h; header := header_line' h;
                       buttons := action_buttons h; timer := timer_panel h;
                       history := history_rows h |}.
Proof.
  intros H Hrows. unfold render. rewrite H.
  destruct (render_history' h); [reflexivity | congruence].
Qed.

Lemma render_throws (h : Hooks) :
  isLoading h = false -> render_history' h = None -> render' h = RenderThrows.
Proof. intros H Hrows. unfold render. rewrite H, Hrows. reflexivity. Qed.

Lemma render_shown (h : Hooks) (c : Content) :
  render' h = Shown c ->
  isLoading h = false /\
  c = {| live := isRealTime h; header := header_line' h;
         buttons := action_buttons h; timer := timer_panel h;
         history := history_rows h |}.
Proof.
  unfold render. destruct (isLoading h); [discriminate |].
  destruct (render_history' h); [| discriminate].
  intros H. inversion H. auto.
Qed.

(** C1 (as amended): for a current session with status [active] whose
    clock-in parses to the instant [t], a tick of the timer effect at the
    instant [now] happens and stores [now - t] as the elapsed time; when
    [t] is not later than [now], the timer shows the whole seconds of it
    as hours, minutes below sixty and seconds below sixty, each written
    with at least two digits, under the caption Work Time, and so does
    the page of the next render (when its history renders).  The same
    holds for status [break], a non-empty [break_start] that parses, the
    break time and the caption Break Time. *)
Theorem timer_shows_elapsed (w : World) (e : Entry.t) (now t : Z) :
  currentEntry (ui w) = Some e ->
  let w' := exec (updateTimer' now) w in
  let seconds := (now - t) / 1000 in
  let text := field (seconds / 3600) ++ ":" ++ field (seconds / 60 mod 60) ++
              ":" ++ field (seconds mod 60) in
  (Entry.status e = active ->
   Date_getTime (Entry.clock_in e) = Js.Num t ->
     step' (Tick now) w = Some w' /\
     elapsedTime (ui w') = Js.Num (now - t) /\
     (t <= now ->
      seconds / 3600 * 3600 + (seconds / 60 mod 60) * 60 + seconds mod 60
      = seconds /\
      0 <= seconds / 60 mod 60 < 60 /\ 0 <= seconds mod 60 < 60 /\
      timer_panel (ui w')
      = Some {| timer_text := text; timer_caption := "Work Time" |} /\
      (isLoading (ui w) = false -> render_history' (ui w) <> None ->
       exists c, render' (page (commit w')) = Shown c /\
                 timer c = Some {| timer_text := text;
                                   timer_caption := "Work Time" |}))) /\
  (Entry.status e = break ->
   forall break_start, Entry.break_start e = Some break_start ->
     break_start <> "" ->
     Date_getTime break_start = Js.Num t ->
     step' (Tick now) w = Some w' /\
     breakTime (ui w') = Js.Num (now - t) /\
     (t <= now ->
      seconds / 3600 * 3600 + (seconds / 60 mod 60) * 60 + seconds mod 60
      = seconds /\
      0 <= seconds / 60 mod 60 < 60 /\ 0 <= seconds mod 60 < 60 /\
      timer_panel (ui w')
      = Some {| timer_text := text; timer_caption := "Break Time" |} /\
      (isLoading (ui w) = false -> render_history' (ui w) <> None ->
       exists c, render' (page (commit w')) = Shown c /\
                 timer c = Some {| timer_text := text;
                                   timer_caption := "Break Time" |}))).
Proof.
  intros Hcur w' seconds text.
  assert (Hsum : seconds / 3600 * 3600 + (seconds / 60 mod 60) * 60 + seconds mod 60
                 = seconds /\
                 0 <= seconds / 60 mod 60 < 60 /\ 0 <= seconds mod 60 < 60).
  { generalize seconds. intros n. Z.to_euclidean_division_equations. lia. }
  split.
  - intros Hst Ht.
    assert (Hw : w' = exec (setElapsedTime (Js.Num (now - t))) w).
    { unfold w', exec, updateTimer. rewrite Hcur, Hst, Ht. reflexivity. }
    split; [simpl; unfold timer_running; rewrite Hcur, Hst; reflexivity |].
    split; [rewrite Hw; reflexivity |].
    intros Hle.
    assert (Hpanel : timer_panel (ui w')
              = Some {| timer_text := text; timer_caption := "Work Time" |}).
    { rewrite Hw. unfold timer_panel; simpl. rewrite Hcur, Hst. simpl.
      rewrite formatTime_fields by lia. reflexivity. }
    destruct Hsum as (Hs1 & Hs2 & Hs3).
    repeat split; try assumption; try lia.
    intros Hload Hrows. eexists. split.
    + apply render_not_loading; rewrite Hw; simpl; assumption.
    + cbn [timer]. exact Hpanel.
  - intros Hst s Hs Hne Ht.
    assert (Htruthy : Js.truthy (Some s) = true).
    { destruct s; [congruence | reflexivity]. }
    assert (Hw : w' = exec (setBreakTime (Js.Num (now - t))) w).
    { unfold w', exec, updateTimer. rewrite Hcur, Hst, Hs, Htruthy, Ht.
      reflexivity. }
    split; [simpl; unfold timer_running; rewrite Hcur, Hst; reflexivity |].
    split; [rewrite Hw; reflexivity |].
    intros Hle.
    assert (Hpanel : timer_panel (ui w')
              = Some {| timer_text := text; timer_caption := "Break Time" |}).
    { rewrite Hw. unfold timer_panel; simpl. rewrite Hcur, Hst. simpl.
      rewrite formatTime_fields by lia. reflexivity. }
    destruct Hsum as (Hs1 & Hs2 & Hs3).
    repeat split; try assumption; try lia.
    intros Hload Hrows. eexists. split.
    + apply render_not_loading; rewrite Hw; simpl; assumption.
    + cbn [timer]. exact Hpanel.
Qed.

(** C6 (as amended): for a current session whose reference timestamp is
    unparsable, running [updateTimer] does not throw and the timer then
    shows the text NaN:NaN:NaN (for status [break], when [break_start] is
    a non-empty string); and when [clock_in] is unparsable for
    [parseISO], the header shows the raw [clock_in] string after
    [Since]. *)
Theorem unparsable_timestamp_display (w : World) (e : Entry.t) (now : Z) :
  currentEntry (ui w) = Some e ->
  fst (updateTimer' now w) = Ok tt /\
  (Entry.status e = active ->
   Date_getTime (Entry.clock_in e) = Js.NaN ->
   timer_panel (ui (exec (updateTimer' now) w))
   = Some {| timer_text := "NaN:NaN:NaN"; timer_caption := "Work Time" |}) /\
  (Entry.status e = break ->
   forall break_start, Entry.break_start e = Some break_start ->
     break_start <> "" ->
     Date_getTime break_start = Js.NaN ->
     timer_panel (ui (exec (updateTimer' now) w))
     = Some {| timer_text := "NaN:NaN:NaN"; timer_caption := "Break Time" |}) /\
  (parseISO (Entry.clock_in e) = Js.NaN ->
   header_line' (ui w) = Since (getStatusBadge (ui w)) (Entry.clock_in e)).
Proof.
  intros Hcur. split; [| split; [| split]].
  - unfold updateTimer. rewrite Hcur.
    destruct (Status_eqb (Entry.status e) active); [reflexivity |].
    destruct (Entry.break_start e) as [s |]; [| reflexivity].
    destruct (Status_eqb (Entry.status e) break && Js.truthy (Some s));
      reflexivity.
  - intros Hst Hnan.
    unfold exec, updateTimer, timer_panel. rewrite Hcur, Hst; simpl.
    rewrite Hcur, Hst, Hnan. reflexivity.
  - intros Hst s Hs Hne Hnan.
    assert (Htruthy : Js.truthy (Some s) = true).
    { destruct s; [congruence | reflexivity]. }
    unfold exec, updateTimer, timer_panel.
    rewrite Hcur, Hst, Hs, Htruthy; simpl.
    rewrite Hcur, Hst, Hnan. reflexivity.
  - intros Hnan. unfold header_line, formatActivityTime, format.
    rewrite Hcur, Hnan. reflexivity.
Qed.

(** C7: in every render of a state that has a current session (whatever
    its status, so in particular [active] or [break]) there is no
    clock-in button, be it the render of the current state or the one on
    the page, and a click on one cannot happen; a click on the clock-in
    button happens only on a page whose state has no current session. *)
Theorem clock_in_only_without_session (w : World) :
  (forall e, currentEntry (ui w) = Some e ->
     Entry.status e = active \/ Entry.status e = break ->
     forall d, ~ In (ClockInButton d) (action_buttons (ui w)) /\
               clickable' (ClockInButton d) (ui w) = false) /\
  (forall e, currentEntry (page w) = Some e ->
     Entry.status e = active \/ Entry.status e = break ->
     forall d, ~ In (ClockInButton d) (action_buttons (page w)) /\
               step' (Click (ClockInButton d)) w = None) /\
  (forall d w', step' (Click (ClockInButton d)) w = Some w' ->
     currentEntry (page w) = None).
Proof.
  assert (Hnone : forall h e d, currentEntry h = Some e ->
                    ~ In (ClockInButton d) (action_buttons h) /\
                    clickable' (ClockInButton d) h = false).
  { intros h e d Hcur. split.
    - unfold action_buttons. rewrite Hcur.
      destruct (Status_eqb (Entry.status e) active); simpl.
      + intros [H | []]. discriminate.
      + tauto.
    - unfold clickable, render.
      destruct (isLoading h); [reflexivity |].
      destruct (render_history' h); [| reflexivity].
      cbn [buttons]. unfold action_buttons. rewrite Hcur.
      destruct (Status_eqb (Entry.status e) active); reflexivity. }
  split; [| split].
  - intros e Hcur _ d. exact (Hnone (ui w) e d Hcur).
  - intros e Hcur _ d. destruct (Hnone (page w) e d Hcur) as [Hin Hclick].
    split; [exact Hin |]. simpl. rewrite Hclick. reflexivity.
  - intros d w' Hstep. simpl in Hstep.
    destruct (currentEntry (page w)) as [e |] eqn:Hcur; [| reflexivity].
    rewrite (proj2 (Hnone (page w) e d Hcur)) in Hstep. discriminate.
Qed.

(** *** What the fetchers and the timer leave alone *)

Lemma fetchCurrentEntry_frame (u : AuthOutcome) (o : FetchOutcome Entry.t) (w : World) :
  let w' := exec (fetchCurrentEntry u o) w in
  isLoading (ui w') = isLoading (ui w) /\ inflight w' = inflight w /\
  boot w' = boot w /\ toasts w' = toasts w /\
  recentActivities (ui w') = recentActivities (ui w).
Proof.
  destruct u; destruct o as [| s [b |]];
    unfold exec, fetchCurrentEntry, try_catch, bind; simpl;
    try destruct (ok _); simpl; auto 10.
Qed.

Lemma fetchRecentActivities_frame (u : AuthOutcome)
    (o : FetchOutcome (list Activity.t)) (w : World) :
  let w' := exec (fetchRecentActivities u o) w in
  isLoading (ui w') = isLoading (ui w) /\ inflight w' = inflight w /\
  boot w' = boot w /\ toasts w' = toasts w /\
  currentEntry (ui w') = currentEntry (ui w).
Proof.
  destruct u; destruct o as [| s [[flag [l |] err] |]];
    unfold exec, fetchRecentActivities, try_catch, bind; simpl;
    try destruct (ok _); try destruct flag; simpl; auto 10.
Qed.

Lemma updateTimer_frame (now : Z) (w : World) :
  let w' := exec (updateTimer' now) w in
  isLoading (ui w') = isLoading (ui w) /\ inflight w' = inflight w /\
  boot w' = boot w /\ toasts w' = toasts w /\
  currentEntry (ui w') = currentEntry (ui w).
Proof.
  unfold exec, updateTimer.
  destruct (currentEntry (ui w)) as [e |] eqn:Hcur; [| simpl; auto 10].
  destruct (Status_eqb (Entry.status e) active); [simpl; auto 10 |].
  destruct (Entry.break_start e) as [s |]; [| simpl; auto 10].
  destruct (Status_eqb (Entry.status e) break && Js.truthy (Some s));
    simpl; auto 10.
Qed.

(** *** The handlers and the busy flag *)

Lemma handle_busy (op : Op) (w : World) :
  isLoading (page w) = true -> handle op w = w.
Proof.
  intros H. destruct op; simpl;
    unfold handleClockIn, handleClockOut, handleStartBreak, handleEndBreak;
    rewrite H; reflexivity.
Qed.

Lemma handle_idle (op : Op) (w : World) :
  isLoading (page w) = false ->
  exists p, inflight (handle op w) = p :: inflight w /\
            isLoading (ui (handle op w)) = true /\
            boot (handle op w) = boot w.
Proof.
  intros H. destruct op; simpl;
    unfold handleClockIn, handleClockOut, handleStartBreak, handleEndBreak;
    rewrite H; eexists; simpl; repeat split.
Qed.

Lemma handle_boot (op : Op) (w : World) : boot (handle op w) = boot w.
Proof.
  destruct (isLoading (page w)) eqn:Hload.
  - now rewrite handle_busy.
  - destruct (handle_idle op w Hload) as (p & _ & _ & Hb). exact Hb.
Qed.

Lemma handle_page (op : Op) (w : World) : page (handle op w) = page w.
Proof.
  destruct op; simpl;
    unfold handleClockIn, handleClockOut, handleStartBreak, handleEndBreak;
    destruct (isLoading (page w)); reflexivity.
Qed.

Lemma onClick_handle (b : Button) (w : World) :
  exists op, onClick b w = handle op w.
Proof.
  destruct b; [exists ClockOut | exists ClockIn]; reflexivity.
Qed.

Lemma handle_response_ends (op : Op) (o : FetchOutcome Entry.t) (w : World) :
  inflight (handle_response op o w) = inflight w /\
  isLoading (ui (handle_response op o w)) = false /\
  boot (handle_response op o w) = boot w.
Proof.
  destruct op; destruct o as [| s [[[] [d |] err] |]]; simpl; auto;
    unfold handleClockOut_response, guarded, bind; simpl;
    destruct (Entry.total_hours d); simpl; auto.
Qed.

Lemma handle_response_page (op : Op) (o : FetchOutcome Entry.t) (w : World) :
  page (handle_response op o w) = page w.
Proof.
  destruct op; destruct o as [| s [[[] [d |] err] |]]; simpl; auto;
    unfold handleClockOut_response, guarded, bind; simpl;
    destruct (Entry.total_hours d); simpl; auto.
Qed.

Lemma handleClockIn_user_next (u : AuthOutcome) (w : World) :
  boot (handleClockIn_user u w) = boot w /\
  ((inflight (handleClockIn_user u w) = inflight w /\
    isLoading (ui (handleClockIn_user u w)) = false) \/
   (inflight (handleClockIn_user u w) = AwaitResponse ClockIn :: inflight w /\
    isLoading (ui (handleClockIn_user u w)) = isLoading (ui w))).
Proof.
  destruct u; simpl; auto.
Qed.

Lemma handleClockIn_user_page (u : AuthOutcome) (w : World) :
  page (handleClockIn_user u w) = page w.
Proof. destruct u; reflexivity. Qed.

Lemma fetchCurrentEntry_page (u : AuthOutcome) (o : FetchOutcome Entry.t) (w : World) :
  page (exec (fetchCurrentEntry u o) w) = page w.
Proof.
  destruct u; destruct o as [| s [b |]];
    unfold exec, fetchCurrentEntry, try_catch, bind; simpl;
    try destruct (ok _); reflexivity.
Qed.

Lemma fetchRecentActivities_page (u : AuthOutcome)
    (o : FetchOutcome (list Activity.t)) (w : World) :
  page (exec (fetchRecentActivities u o) w) = page w.
Proof.
  destruct u; destruct o as [| s [[flag [l |] err] |]];
    unfold exec, fetchRecentActivities, try_catch, bind; simpl;
    try destruct (ok _); try destruct flag; reflexivity.
Qed.

Lemma updateTimer_page (now : Z) (w : World) :
  page (exec (updateTimer' now) w) = page w.
Proof.
  unfold exec, updateTimer.
  destruct (currentEntry (ui w)) as [e |]; [| reflexivity].
  destruct (Status_eqb (Entry.status e) active); [reflexivity |].
  destruct (Entry.break_start e) as [s |]; [| reflexivity].
  destruct (Status_eqb (Entry.status e) break && Js.truthy (Some s));
    reflexivity.
Qed.


(** *** The mount sequence *)

Lemma step_after_boot (ev : Event) (w w' : World) :
  boot w = Booted -> step' ev w = Some w' -> boot w' = Booted.
Proof.
  intros Hb Hstep.
  destruct ev as [u | u o | u o | | b | op | u | op o | u o | now |];
    simpl in Hstep; try (rewrite Hb in Hstep; discriminate).
  - destruct (clickable' b (page w)); try discriminate.
    inversion Hstep; subst.
    destruct (onClick_handle b w) as [op ->]. now rewrite handle_boot.
  - inversion Hstep; subst. now rewrite handle_boot.
  - destruct (resume _ _) as [rest |]; try discriminate.
    inversion Hstep; subst.
    destruct (handleClockIn_user_next u (with_inflight (fun _ => rest) w))
      as (Hb' & _). rewrite Hb'. exact Hb.
  - destruct (resume _ _) as [rest |]; try discriminate.
    inversion Hstep; subst.
    destruct (handle_response_ends op o (with_inflight (fun _ => rest) w))
      as (_ & _ & Hb'). rewrite Hb'. exact Hb.
  - destruct (refreshTimers w); try discriminate.
    inversion Hstep; subst.
    destruct (fetchRecentActivities_frame u o (take_refreshTimer w))
      as (_ & _ & Hb' & _). rewrite Hb'. exact Hb.
  - destruct (timer_running (ui w)); try discriminate.
    inversion Hstep; subst.
    destruct (updateTimer_frame now w) as (_ & _ & Hb' & _).
    rewrite Hb'. exact Hb.
  - inversion Hstep; subst. exact Hb.
Qed.

Lemma mounting_inv_step (ev : Event) (w w' : World) :
  mounting_inv w -> step' ev w = Some w' -> mounting_inv w'.
Proof.
  intros [Hb | (Hl & Hi & Ht & Hc & Hp)] Hstep.
  - left. exact (step_after_boot ev w w' Hb Hstep).
  - destruct ev as [u | u o | u o | | b | op | u | op o | u o | now |];
      simpl in Hstep.
    + destruct (boot w) eqn:Hb; try discriminate.
      right. destruct u; inversion Hstep; subst; simpl; auto 10.
    + destruct (boot w) as [| [] a | | |] eqn:Hb; try discriminate.
      inversion Hstep; subst.
      destruct (fetchCurrentEntry_frame u o w) as (Hl' & Hi' & _ & Ht' & _).
      pose proof (fetchCurrentEntry_page u o w) as Hp'.
      right. unfold fetcher_done; simpl.
      repeat split; try congruence. destruct a; discriminate.
    + destruct (boot w) as [| c [] | | |] eqn:Hb; try discriminate.
      inversion Hstep; subst.
      destruct (fetchRecentActivities_frame u o w)
        as (Hl' & Hi' & _ & Ht' & Hc').
      pose proof (fetchRecentActivities_page u o w) as Hp'.
      right. unfold fetcher_done; simpl.
      repeat split; try congruence.
      intros Hpend. rewrite Hc'. apply Hc. destruct c; [discriminate | reflexivity].
    + destruct (boot w); try discriminate.
      inversion Hstep; subst. left. reflexivity.
    + unfold clickable, render in Hstep. rewrite Hp in Hstep. discriminate.
    + inversion Hstep; subst. rewrite handle_busy by exact Hp.
      right. auto 10.
    + rewrite Hi in Hstep. discriminate.
    + rewrite Hi in Hstep. discriminate.
    + destruct (refreshTimers w); try discriminate.
      inversion Hstep; subst.
      destruct (fetchRecentActivities_frame u o (take_refreshTimer w))
        as (Hl' & Hi' & Hb' & Ht' & Hc').
      pose proof (fetchRecentActivities_page u o (take_refreshTimer w)) as Hp'.
      right. rewrite Hl', Hi', Hb', Ht', Hc', Hp'. simpl. auto 10.
    + destruct (timer_running (ui w)); try discriminate.
      inversion Hstep; subst.
      destruct (updateTimer_frame now w) as (Hl' & Hi' & Hb' & Ht' & Hc').
      pose proof (updateTimer_page now w) as Hp'.
      right. rewrite Hl', Hi', Hb', Ht', Hc', Hp'. auto 10.
    + inversion Hstep; subst. right. simpl. auto 10.
Qed.

Lemma reachable_mounting_inv (w : World) : reachable' w -> mounting_inv w.
Proof.
  induction 1 as [| ev w w' _ IH Hstep].
  - right. simpl. auto 10.
  - exact (mounting_inv_step ev w w' IH Hstep).
Qed.

Lemma no_session_inv_step (ev : Event) (w w' : World) :
  no_session_inv w -> step' ev w = Some w' -> no_session_inv w'.
Proof.
  intros [Hb | (Hl & Hi & Ht & Hc & Hpend & Hf & Hp)] Hstep.
  - left. exact (step_after_boot ev w w' Hb Hstep).
  - destruct ev as [u | u o | u o | | b | op | u | op o | u o | now |];
      simpl in Hstep.
    + destruct (boot w); try discriminate.
    + destruct (boot w) as [| [] a | | |]; discriminate.
    + destruct (boot w) as [| c [] | | |] eqn:Hb; try discriminate.
      destruct c; try discriminate.
      inversion Hstep; subst.
      destruct (fetchRecentActivities_frame u o w)
        as (Hl' & Hi' & _ & Ht' & Hc').
      pose proof (fetchRecentActivities_page u o w) as Hp'.
      right. unfold fetcher_done; simpl.
      repeat split; try congruence.
    + destruct (boot w); try discriminate.
      inversion Hstep; subst. left. reflexivity.
    + unfold clickable, render in Hstep. rewrite Hp in Hstep. discriminate.
    + inversion Hstep; subst. rewrite handle_busy by exact Hp.
      right. auto 10.
    + rewrite Hi in Hstep. discriminate.
    + rewrite Hi in Hstep. discriminate.
    + destruct (refreshTimers w); try discriminate.
      inversion Hstep; subst.
      destruct (fetchRecentActivities_frame u o (take_refreshTimer w))
        as (Hl' & Hi' & Hb' & Ht' & Hc').
      pose proof (fetchRecentActivities_page u o (take_refreshTimer w)) as Hp'.
      right. rewrite Hl', Hi', Hb', Ht', Hc', Hp'. simpl. auto 10.
    + unfold timer_running in Hstep. rewrite Hc in Hstep. discriminate.
    + inversion Hstep; subst. right. simpl. auto 10.
Qed.

Lemma no_session_inv_run (evs : list Event) :
  forall w w', no_session_inv w -> run' evs w = Some w' -> no_session_inv w'.
Proof.
  induction evs as [| ev rest IH]; intros w w' Hinv Hrun; simpl in Hrun.
  - inversion Hrun; subst. exact Hinv.
  - destruct (step' ev w) as [w1 |] eqn:Hstep; try discriminate.
    exact (IH w1 w' (no_session_inv_step ev w w1 Hinv Hstep) Hrun).
Qed.

Lemma fetchCurrentEntry_no_session (u : AuthOutcome) (o : FetchOutcome Entry.t)
    (w : World) :
  no_session_outcome u o ->
  currentEntry (ui w) = None ->
  currentEntry (ui (exec (fetchCurrentEntry u o) w)) = None.
Proof.
  intros Hout Hcur.
  destruct Hout as [o | uid body | uid body | o | uid | uid s];
    unfold exec, fetchCurrentEntry, try_catch, bind; simpl; auto.
  destruct (ok (s, None)); reflexivity.
Qed.

(** C4: when the mount sequence runs [fetchCurrentEntry] and nobody is
    signed in, or the response status is 404 or 401, or an awaited call
    throws, the widget has no local session and has shown no toast, and
    the header for that state reads [Ready to clock in].  Whatever
    happens next, when the mount sequence ends (its 150 ms timeout fires)
    there is still no session and no toast; the render that follows
    shows [Ready to clock in] with the clock-in button, and it is
    there whenever the history renders (it throws only for a history
    entry with an unparsable date). *)
Theorem current_session_fetch_quiet
    (w w' : World) (u : AuthOutcome) (o : FetchOutcome Entry.t) :
  reachable' w ->
  no_session_outcome u o ->
  step' (InitCurrent u o) w = Some w' ->
  currentEntry (ui w') = None /\
  toasts w' = [] /\
  header_line' (ui w') = ReadyToClockIn /\
  forall (evs : list Event) (w1 w2 : World),
    run' evs w' = Some w1 ->
    step' InitTimeout w1 = Some w2 ->
    currentEntry (ui w2) = None /\
    toasts w2 = [] /\
    header_line' (ui w2) = ReadyToClockIn /\
    action_buttons (ui w2) = [ClockInButton false] /\
    step' Render w2 = Some (commit w2) /\
    (forall c, render' (page (commit w2)) = Shown c ->
               header c = ReadyToClockIn /\ buttons c = [ClockInButton false]) /\
    (render_history' (ui w2) <> None ->
     exists c, render' (page (commit w2)) = Shown c) /\
    (render_history' (ui w2) = None ->
     render' (page (commit w2)) = RenderThrows).
Proof.
  intros Hreach Hout Hstep.
  apply reachable_mounting_inv in Hreach.
  simpl in Hstep.
  destruct (boot w) as [| [] a | | |] eqn:Hb; try discriminate.
  inversion Hstep; subst w'; clear Hstep.
  destruct Hreach as [Hbooted | (Hl & Hi & Ht & Hc & Hp)]; [congruence |].
  assert (Hcur : currentEntry (ui w) = None) by (apply Hc; rewrite Hb; reflexivity).
  destruct (fetchCurrentEntry_frame u o w) as (Hl' & Hi' & Hb' & Ht' & _).
  pose proof (fetchCurrentEntry_page u o w) as Hp'.
  pose proof (fetchCurrentEntry_no_session u o w Hout Hcur) as Hcur'.
  set (w' := fetcher_done true a (exec (fetchCurrentEntry u o) w)).
  assert (Hcur'' : currentEntry (ui w') = None) by exact Hcur'.
  assert (Hinv : no_session_inv w').
  { right. unfold w', fetcher_done; simpl.
    repeat split; try congruence; destruct a; simpl; congruence. }
  split; [exact Hcur'' |].
  split; [unfold w', fetcher_done; simpl; congruence |].
  split; [unfold header_line; rewrite Hcur''; reflexivity |].
  intros evs w1 w2 Hrun Htimeout.
  pose proof (no_session_inv_run evs w' w1 Hinv Hrun) as Hinv1.
  simpl in Htimeout. destruct (boot w1) eqn:Hb1; try discriminate.
  destruct Hinv1 as [Hbooted | (_ & _ & Ht1 & Hc1 & _)]; [congruence |].
  inversion Htimeout; subst w2; clear Htimeout.
  set (w2 := with_boot Booted (exec (setIsLoading false) w1)).
  assert (Hc2 : currentEntry (ui w2) = None) by exact Hc1.
  assert (Hl2 : isLoading (ui w2) = false) by reflexivity.
  assert (Hheader : header_line' (ui w2) = ReadyToClockIn).
  { unfold header_line. rewrite Hc2. reflexivity. }
  assert (Hbuttons : action_buttons (ui w2) = [ClockInButton false]).
  { unfold action_buttons. rewrite Hc2, Hl2. reflexivity. }
  split; [exact Hc2 |]. split; [exact Ht1 |].
  split; [exact Hheader |]. split; [exact Hbuttons |].
  split; [reflexivity |].
  split; [| split].
  - intros c Hshown. apply render_shown in Hshown. destruct Hshown as [_ ->].
    cbn [header buttons]. split; [exact Hheader | exact Hbuttons].
  - intros Hrows. eexists. apply render_not_loading; assumption.
  - intros Hrows. apply render_throws; assumption.
Qed.

Lemma reachable_run (evs : list Event) :
  forall w w', reachable' w -> run' evs w = Some w' -> reachable' w'.
Proof.
  induction evs as [| ev rest IH]; intros w w' Hreach Hrun; simpl in Hrun.
  - inversion Hrun; subst. exact Hreach.
  - destruct (step' ev w) as [w1 |] eqn:Hstep; try discriminate.
    apply (IH w1 w'); [| exact Hrun].
    exact (reachable_step _ _ _ _ ev w w1 Hreach Hstep).
Qed.

End Properties.

Lemma timer_shows_elapsed_witness :
  let working := sample_entry nine None active in
  let resting := sample_entry nine (Some "2024-01-15T10:30:00.000Z") break in
  (Entry.status working = active /\
   IsoSample.time_value (Entry.clock_in working) = Js.Num 1705309200000 /\
   1705309200000 <= 1705312925250 /\
   timer_panel
     (ui (exec (updateTimer IsoSample.time_value 1705312925250)
               (world_with (Some working))))
   = Some {| timer_text := "01:02:05"; timer_caption := "Work Time" |}) /\
  (Entry.status resting = break /\
   IsoSample.time_value "2024-01-15T10:30:00.000Z" = Js.Num 1705314600000 /\
   1705314600000 <= 1705314607000 /\
   timer_panel
     (ui (exec (updateTimer IsoSample.time_value 1705314607000)
               (world_with (Some resting))))
   = Some {| timer_text := "00:00:07"; timer_caption := "Break Time" |}).
Proof.
  intros working resting.
  assert (Hle1 : 1705309200000 <= 1705312925250) by discriminate.
  assert (Hle2 : 1705314600000 <= 1705314607000) by discriminate.
  split.
  - destruct (timer_shows_elapsed IsoSample.time_value IsoSample.time_value
                IsoSample.time_of_day day_number (world_with (Some working))
                working 1705312925250 1705309200000 eq_refl) as [Hactive _].
    destruct (Hactive eq_refl eq_refl) as (_ & _ & Htext).
    destruct (Htext Hle1) as (_ & _ & _ & Hpanel & _).
    split; [reflexivity |]. split; [reflexivity |]. split; [exact Hle1 |].
    exact Hpanel.
  - destruct (timer_shows_elapsed IsoSample.time_value IsoSample.time_value
                IsoSample.time_of_day day_number (world_with (Some resting))
                resting 1705314607000 1705314600000 eq_refl) as [_ Hbreak].
    assert (Hne : "2024-01-15T10:30:00.000Z" <> "") by discriminate.
    destruct (Hbreak eq_refl _ eq_refl Hne eq_refl) as (_ & _ & Htext).
    destruct (Htext Hle2) as (_ & _ & _ & Hpanel & _).
    split; [reflexivity |]. split; [reflexivity |]. split; [exact Hle2 |].
    exact Hpanel.
Defined.

(** C1 as stated fails: for an active session whose clock-in lies 250 ms
    after the instant of the tick, the elapsed time is -250 ms, and the
    timer shows -1:-1:-1: the three fields read minus one hour, minus one
    minute and minus one second, 3661 s in all, not a quarter of a
    second. *)
Lemma timer_before_clock_in :
  let early := 1705309199750 in
  let w' := exec (updateTimer IsoSample.time_value early)
                 (world_with (Some (sample_entry nine None active))) in
  IsoSample.time_value nine = Js.Num 1705309200000 /\
  elapsedTime (ui w') = Js.Num (early - 1705309200000) /\
  early - 1705309200000 = -250 /\
  timer_panel (ui w')
  = Some {| timer_text := "-1:-1:-1"; timer_caption := "Work Time" |} /\
  "-1:-1:-1" = field (-1) ++ ":" ++ field (-1) ++ ":" ++ field (-1) /\
  (-1) * 3600 + (-1) * 60 + (-1) <> -250 / 1000 /\
  (-1) * 3600 + (-1) * 60 + (-1) <> Z.quot (-250) 1000.
Proof.
  intros early w'. repeat split; discriminate.
Qed.

(** Outside the response shape that C3 takes for granted: a clock-out
    response that reports success without data, or with a [total_hours]
    that is not a number, makes the description of the success toast
    throw; the error toast is shown and the session stays open. *)
Lemma clock_out_success_without_data :
  let open := sample_entry nine None active in
  let odd := {| Entry.id := "e-1"; Entry.clock_in := nine;
                Entry.clock_out := Some "2024-01-15T17:00:00.000Z";
                Entry.break_start := None; Entry.break_end := None;
                Entry.status := completed; Entry.location := None;
                Entry.total_hours := OtherValue "8.00";
                Entry.break_duration := 0%Q |} in
  let after (d : option Entry.t) :=
    handleClockOut_response
      (Replied 200 (Some {| success := true; data := d; error := None |}))
      (world_awaiting ClockOut (Some open)) in
  (currentEntry (ui (after None)) = Some open /\
   toasts (after None) = [toast_error "Failed to clock out"] /\
   dispatched (after None) = []) /\
  (currentEntry (ui (after (Some odd))) = Some open /\
   toasts (after (Some odd)) = [toast_error "Failed to clock out"] /\
   dispatched (after (Some odd)) = []).
Proof.
  intros open odd after. repeat split.
Qed.

Lemma clock_out_response_outcome_witness :
  let closed := {| Entry.id := "e-1"; Entry.clock_in := nine;
                   Entry.clock_out := Some "2024-01-15T17:00:00.000Z";
                   Entry.break_start := None; Entry.break_end := None;
                   Entry.status := completed; Entry.location := None;
                   Entry.total_hours := NumberValue 8%Q;
                   Entry.break_duration := 0%Q |} in
  let w' := handleClockOut_response
              (Replied 200 (Some {| success := true; data := Some closed;
                                    error := None |}))
              (world_awaiting ClockOut (Some (sample_entry nine None active))) in
  (forall json, Entry.total_hours closed <> OtherValue json) /\
  currentEntry (ui w') = None /\
  elapsedTime (ui w') = Js.Num 0 /\ breakTime (ui w') = Js.Num 0.
Proof.
  intros closed w'.
  assert (Hnumber : forall json, Entry.total_hours closed <> OtherValue json)
    by (intros json; discriminate).
  destruct clock_out_response_outcome as [Hsuccess _].
  destruct (Hsuccess (world_awaiting ClockOut (Some (sample_entry nine None active)))
              200 closed None Hnumber) as (Hcur & Hel & Hbr & _).
  split; [exact Hnumber |]. split; [exact Hcur |]. split; [exact Hel | exact Hbr].
Defined.

Lemma current_session_fetch_quiet_witness :
  let w := with_boot (BootFetching false false) mount in
  let o := Replied 401 (Some {| success := false; data := None;
                                error := Some "Unauthorized" |}) in
  let w' := with_boot (BootFetching true false) mount in
  let w2 := with_boot Booted (exec (setIsLoading false) mount) in
  no_session_outcome signed_in o /\
  step IsoSample.time_value IsoSample.time_value IsoSample.time_of_day day_number
       (InitCurrent signed_in o) w
  = Some (exec (fetch POST_get_current) w') /\
  toasts (exec (fetch POST_get_current) w') = [] /\
  render_history IsoSample.time_value IsoSample.time_of_day day_number
                 (ui (exec (fetch POST_get_current) w2)) <> None /\
  exists c, render IsoSample.time_value IsoSample.time_of_day day_number
              (page (commit (exec (fetch POST_get_current) w2))) = Shown c /\
            header c = ReadyToClockIn /\ buttons c = [ClockInButton false].
Proof.
  intros w o w' w2.
  assert (Hreach : reachable IsoSample.time_value IsoSample.time_value
                     IsoSample.time_of_day day_number w).
  { apply (reachable_step _ _ _ _ (InitUser signed_in) mount w).
    - apply reachable_mount.
    - reflexivity. }
  assert (Hout : no_session_outcome signed_in o) by apply status_401.
  destruct (current_session_fetch_quiet _ _ _ _ w
              (exec (fetch POST_get_current) w') signed_in o
              Hreach Hout eq_refl) as (_ & Htoasts & _ & Hlater).
  destruct (Hlater [InitActivities Anonymous Rejected]
                   (with_boot BootDelay (exec (fetch POST_get_current) mount))
                   (exec (fetch POST_get_current) w2) eq_refl eq_refl)
    as (_ & _ & _ & _ & _ & Hshown & Hrenders & _).
  assert (Hrows : render_history IsoSample.time_value IsoSample.time_of_day
                    day_number (ui (exec (fetch POST_get_current) w2)) <> None)
    by discriminate.
  split; [exact Hout |]. split; [reflexivity |]. split; [exact Htoasts |].
  split; [exact Hrows |].
  destruct (Hrenders Hrows) as [c Hc]. exists c.
  split; [exact Hc | exact (Hshown c Hc)].
Defined.

Lemma clock_in_response_outcome_witness :
  let opened := sample_entry nine None active in
  let accepted := Replied 200 (Some {| success := true; data := Some opened;
                                       error := None |}) in
  let refused := Replied 400 (Some {| success := false; data := None;
                                      error := Some "Already clocked in" |}) in
  let w := world_awaiting ClockIn None in
  (reports_success accepted = true /\
   currentEntry (ui (handleClockIn_response accepted w)) = Some opened /\
   dispatched (handleClockIn_response accepted w) = ["timeTrackingChanged"]) /\
  (reports_success refused = false /\
   reports_success Rejected = false /\
   toasts (handleClockIn_response refused w) = [toast_error "Already clocked in"] /\
   currentEntry (ui (handleClockIn_response refused w)) = None /\
   dispatched (handleClockIn_response Rejected w) = []).
Proof.
  intros opened accepted refused w.
  destruct (clock_in_response_outcome w accepted) as [Hyes _].
  destruct (clock_in_response_outcome w refused) as [_ Hno].
  destruct (clock_in_response_outcome w Rejected) as [_ Hthrown].
  destruct (Hyes eq_refl) as [Hcur Hdisp].
  destruct (Hno eq_refl) as (_ & Hcur' & _).
  destruct (Hthrown eq_refl) as (_ & _ & Hdisp').
  split.
  - split; [reflexivity |]. split; [exact Hcur | exact Hdisp].
  - split; [reflexivity |]. split; [reflexivity |]. split; [reflexivity |].
    split; [exact Hcur' | exact Hdisp'].
Defined.

(** C6 as stated fails: two sessions whose [clock_in] cannot be parsed
    show two different texts after [Since], their own raw strings, so no
    fixed placeholder stands there; and the timer of such a session shows
    NaN:NaN:NaN. *)
Lemma unparsable_clock_in_shown_raw :
  let vague := sample_entry "yesterday at nine" None active in
  let short := sample_entry "9:00" None active in
  let shown (e : Entry.t) :=
    header_line IsoSample.time_value IsoSample.time_of_day
                (ui (world_with (Some e))) in
  IsoSample.time_value "yesterday at nine" = Js.NaN /\
  IsoSample.time_value "9:00" = Js.NaN /\
  shown vague = Since (Some Badge_Active) "yesterday at nine" /\
  shown short = Since (Some Badge_Active) "9:00" /\
  timer_panel (ui (exec (updateTimer IsoSample.time_value 1705309205250)
                        (world_with (Some vague))))
  = Some {| timer_text := "NaN:NaN:NaN"; timer_caption := "Work Time" |} /\
  ~ (exists placeholder : string,
       forall e : Entry.t,
         Entry.status e = active ->
         IsoSample.time_value (Entry.clock_in e) = Js.NaN ->
         shown e = Since (Some Badge_Active) placeholder).
Proof.
  intros vague short shown.
  split; [reflexivity |]. split; [reflexivity |]. split; [reflexivity |].
  split; [reflexivity |]. split; [reflexivity |].
  intros [placeholder Hfixed].
  pose proof (Hfixed vague eq_refl eq_refl) as Hv.
  pose proof (Hfixed short eq_refl eq_refl) as Hs.
  unfold shown in Hv, Hs. simpl in Hv, Hs.
  rewrite <- Hv in Hs. discriminate Hs.
Qed.

Lemma unparsable_timestamp_display_witness :
  let vague := sample_entry "yesterday at nine" None active in
  let resting := sample_entry nine (Some "after lunch") break in
  (IsoSample.time_value (Entry.clock_in vague) = Js.NaN /\
   timer_panel (ui (exec (updateTimer IsoSample.time_value 1705309205250)
                         (world_with (Some vague))))
   = Some {| timer_text := "NaN:NaN:NaN"; timer_caption := "Work Time" |} /\
   header_line IsoSample.time_value IsoSample.time_of_day
               (ui (world_with (Some vague)))
   = Since (Some Badge_Active) "yesterday at nine") /\
  (IsoSample.time_value "after lunch" = Js.NaN /\
   timer_panel (ui (exec (updateTimer IsoSample.time_value 1705309205250)
                         (world_with (Some resting))))
   = Some {| timer_text := "NaN:NaN:NaN"; timer_caption := "Break Time" |}).
Proof.
  intros vague resting. split.
  - destruct (unparsable_timestamp_display IsoSample.time_value
                IsoSample.time_value IsoSample.time_of_day
                (world_with (Some vague)) vague 1705309205250 eq_refl)
      as (_ & Hactive & _ & Hheader).
    split; [reflexivity |].
    split; [exact (Hactive eq_refl eq_refl) | exact (Hheader eq_refl)].
  - destruct (unparsable_timestamp_display IsoSample.time_value
                IsoSample.time_value IsoSample.time_of_day
                (world_with (Some resting)) resting 1705309205250 eq_refl)
      as (_ & _ & Hbreak & _).
    assert (Hne : "after lunch" <> "") by discriminate.
    split; [reflexivity |].
    exact (Hbreak eq_refl "after lunch" eq_refl Hne eq_refl).
Defined.

Lemma clock_in_only_without_session_witness :
  let working := sample_entry nine None active in
  (currentEntry (page (world_with (Some working))) = Some working /\
   Entry.status working = active /\
   ~ In (ClockInButton false) (action_buttons (page (world_with (Some working)))) /\
   step IsoSample.time_value IsoSample.time_value IsoSample.time_of_day day_number
        (Click (ClockInButton false)) (world_with (Some working)) = None) /\
  (step IsoSample.time_value IsoSample.time_value IsoSample.time_of_day day_number
        (Click (ClockInButton false)) (world_with None)
   = Some (handleClockIn (world_with None)) /\
   currentEntry (page (world_with None)) = None).
Proof.
  intros working. split.
  - destruct (clock_in_only_without_session IsoSample.time_value
                IsoSample.time_value IsoSample.time_of_day day_number
                (world_with (Some working))) as (_ & Hnone & _).
    destruct (Hnone working eq_refl (or_introl eq_refl) false) as [Hin Hclick].
    split; [reflexivity |]. split; [reflexivity |].
    split; [exact Hin | exact Hclick].
  - destruct (clock_in_only_without_session IsoSample.time_value
                IsoSample.time_value IsoSample.time_of_day day_number
                (world_with None)) as (_ & _ & Honly).
    split; [reflexivity |].
    exact (Honly false (handleClockIn (world_with None)) eq_refl).
Defined.

Lemma recent_activities_first_three_witness :
  let w' := exec (fetchRecentActivities signed_in
                    (Replied 200 (Some {| success := true;
                                          data := Some four_activities;
                                          error := None |})))
                 (world_with None) in
  200 <= 200 <= 299 /\
  recentActivities (ui w')
  = [sample_activity "a-4"; sample_activity "a-3"; sample_activity "a-2"] /\
  (length (history_rows (ui w')) <= 3)%nat.
Proof.
  intros w'.
  assert (Hok : 200 <= 200 <= 299) by (split; discriminate).
  destruct recent_activities_first_three as [Hfetch Hrows].
  destruct (Hfetch (world_with None) "u-1" 200 four_activities None Hok)
    as (Hkept & _ & _).
  split; [exact Hok |]. split; [exact Hkept |].
  exact (proj1 (Hrows (ui w'))).
Defined.

Lemma start_break_freezes_work_timer_witness :
  let working := sample_entry nine None active in
  let resting := sample_entry nine (Some "2024-01-15T09:00:05.000Z") break in
  let w := world_awaiting StartBreak (Some working) in
  let w' := handleStartBreak_response
              (Replied 200 (Some {| success := true; data := Some resting;
                                    error := None |})) w in
  let later := ticks IsoSample.time_value [1705309206000; 1705309207000] w' in
  Entry.status resting = break /\
  formatTime (breakTime (ui w')) = "00:00:00" /\
  elapsedTime (ui w') = Js.Num 5000 /\
  run IsoSample.time_value IsoSample.time_value IsoSample.time_of_day day_number
      [Tick 1705309206000; Tick 1705309207000] w' = Some later /\
  elapsedTime (ui later) = Js.Num 5000 /\
  breakTime (ui later) = Js.Num 2000.
Proof.
  intros working resting w w' later.
  destruct (start_break_freezes_work_timer IsoSample.time_value
              IsoSample.time_value IsoSample.time_of_day day_number
              w 200 resting None eq_refl) as (_ & _ & Hzero & Hsame & Hticks).
  destruct (Hticks [1705309206000; 1705309207000]) as (Hrun & _ & Hfrozen).
  split; [reflexivity |]. split; [exact Hzero |]. split; [exact Hsame |].
  split; [exact Hrun |]. split; [exact Hfrozen | reflexivity].
Defined.

Lemma current_fetch_ignores_success_flag_witness :
  let stale := sample_entry nine None active in
  200 <= 200 <= 299 /\
  currentEntry
    (ui (exec (fetchCurrentEntry signed_in
                 (Replied 200 (Some {| success := false; data := Some stale;
                                       error := Some "No active session" |})))
              (world_with None))) = Some stale.
Proof.
  intros stale.
  assert (Hok : 200 <= 200 <= 299) by (split; discriminate).
  split; [exact Hok |].
  exact (current_fetch_ignores_success_flag (world_with None) "u-1" 200 false
           (Some stale) (Some "No active session") Hok).
Defined.

(** ** More properties: the formatters *)

(** X1: the timer text depends on the whole seconds only: two
    non-negative millisecond counts within the same second are shown
    alike. *)
Theorem formatTime_same_second (a b : Z) :
  0 <= a -> 0 <= b -> a / 1000 = b / 1000 ->
  formatTime (Js.Num a) = formatTime (Js.Num b).
Proof.
  intros Ha Hb Hsec. rewrite !formatTime_fields by assumption.
  rewrite Hsec. reflexivity.
Qed.

(** X2: below one hundred hours the timer text has the shape HH:MM:SS:
    two digits, a colon, two digits, a colon, two digits. *)
Theorem formatTime_shape (ms : Z) :
  0 <= ms < 100 * 60 * 60 * 1000 ->
  exists hh mm ss : string,
    formatTime (Js.Num ms) = hh ++ ":" ++ mm ++ ":" ++ ss /\
    two_digits hh = true /\ two_digits mm = true /\ two_digits ss = true /\
    String.length (formatTime (Js.Num ms)) = 8%nat.
Proof.
  intros Hms. rewrite formatTime_fields by lia.
  assert (Hh : two_digits (field (ms / 1000 / 3600)) = true).
  { apply field_two_digits. Z.to_euclidean_division_equations; lia. }
  assert (Hm : two_digits (field (ms / 1000 / 60 mod 60)) = true).
  { apply field_two_digits. Z.to_euclidean_division_equations; lia. }
  assert (Hs : two_digits (field (ms / 1000 mod 60)) = true).
  { apply field_two_digits. Z.to_euclidean_division_equations; lia. }
  exists (field (ms / 1000 / 3600)), (field (ms / 1000 / 60 mod 60)),
         (field (ms / 1000 mod 60)).
  repeat split; try assumption.
  destruct (field (ms / 1000 / 3600)) as [| h1 [| h2 [| ? ?]]]; try discriminate.
  destruct (field (ms / 1000 / 60 mod 60)) as [| m1 [| m2 [| ? ?]]]; try discriminate.
  destruct (field (ms / 1000 mod 60)) as [| s1 [| s2 [| ? ?]]]; try discriminate.
  reflexivity.
Qed.

(** X3: when the reference timestamp lies up to one second in the future
    (the elapsed time is between -1000 and -1 ms), the timer text is
    -1:-1:-1. *)
Theorem formatTime_just_negative (ms : Z) :
  -1000 <= ms < 0 -> formatTime (Js.Num ms) = "-1:-1:-1".
Proof.
  intros Hms. unfold formatTime. cbn [Js.floor_div Js.rem].
  assert (Hr1 : Z.rem ms (1000 * 60 * 60) = ms)
    by (apply Z.rem_small_iff; [lia |]; rewrite Z.abs_neq by lia; simpl; lia).
  assert (Hr2 : Z.rem ms (1000 * 60) = ms)
    by (apply Z.rem_small_iff; [lia |]; rewrite Z.abs_neq by lia; simpl; lia).
  rewrite Hr1, Hr2.
  replace (ms / (1000 * 60 * 60)) with (-1)
    by (change (1000 * 60 * 60) with 3600000;
        Z.to_euclidean_division_equations; lia).
  replace (ms / (1000 * 60)) with (-1)
    by (change (1000 * 60) with 60000;
        Z.to_euclidean_division_equations; lia).
  replace (ms / 1000) with (-1) by (Z.to_euclidean_division_equations; lia).
  reflexivity.
Qed.

(** X4: for a duration that is not positive, [formatDetailedTime] drops
    the hours and the minutes and prints the seconds field alone (so a
    whole number of negative minutes reads 0s); for [NaN] it prints
    NaNs. *)
Theorem formatDetailedTime_not_positive :
  (forall ms : Z,
     ms <= 0 ->
     formatDetailedTime (Js.Num ms)
     = Js.toString (Js.Num (Z.rem ms 60000 / 1000)) ++ "s" /\
     (Z.rem ms 60000 = 0 -> formatDetailedTime (Js.Num ms) = "0s")) /\
  formatDetailedTime Js.NaN = "NaNs".
Proof.
  split; [| reflexivity].
  intros ms Hms.
  assert (Hsec : formatDetailedTime (Js.Num ms)
                 = Js.toString (Js.Num (Z.rem ms 60000 / 1000)) ++ "s").
  { unfold formatDetailedTime. cbn [Js.floor_div Js.rem is_positive].
    change (1000 * 60 * 60) with 3600000. change (1000 * 60) with 60000.
    replace (0 <? ms / 3600000)%Z with false
      by (symmetry; apply Z.ltb_ge; Z.to_euclidean_division_equations; lia).
    replace (0 <? Z.rem ms 3600000 / 60000)%Z with false
      by (symmetry; apply Z.ltb_ge; Z.to_euclidean_division_equations; lia).
    reflexivity. }
  split; [exact Hsec |].
  intros Hrem. rewrite Hsec, Hrem. reflexivity.
Qed.

Section MoreFormatting.

Variable parseISO : string -> Js.number.
Variable format_HHmmss : Z -> string.
Variable format_MMMddyyyy : Z -> string.

Local Abbreviation duration' := (formatActivityDuration parseISO).
Local Abbreviation activity_row' :=
  (activity_row parseISO format_HHmmss format_MMMddyyyy).
Local Abbreviation activity_rows' :=
  (activity_rows parseISO format_HHmmss format_MMMddyyyy).
Local Abbreviation render_history' :=
  (render_history parseISO format_HHmmss format_MMMddyyyy).

(** X5: the total of a row is In Progress when the activity has no
    clock-out (none, or an empty string); otherwise it is the text the
    timer would show for clock-out minus clock-in, so it is NaN:NaN:NaN
    when either timestamp is unparsable. *)
Theorem formatActivityDuration_cases (clockIn : string) :
  duration' clockIn None = "In Progress" /\
  duration' clockIn (Some "") = "In Progress" /\
  (forall out : string,
     out <> "" ->
     duration' clockIn (Some out)
     = formatTime (Js.sub (parseISO out) (parseISO clockIn)) /\
     (parseISO clockIn = Js.NaN \/ parseISO out = Js.NaN ->
      duration' clockIn (Some out) = "NaN:NaN:NaN")).
Proof.
  split; [reflexivity |]. split; [reflexivity |].
  intros out Hne.
  assert (Heq : duration' clockIn (Some out)
                = formatTime (Js.sub (parseISO out) (parseISO clockIn))).
  { unfold formatActivityDuration, formatTime.
    destruct out as [| c rest]; [congruence | reflexivity]. }
  split; [exact Heq |].
  intros [Hnan | Hnan]; rewrite Heq, Hnan;
    [destruct (parseISO out) |]; reflexivity.
Qed.

Lemma activity_rows_length (activities : list Activity.t) :
  forall rows, activity_rows' activities = Some rows ->
               length rows = length activities.
Proof.
  induction activities as [| a rest IH]; intros rows Hrows; simpl in Hrows.
  - inversion Hrows. reflexivity.
  - destruct (activity_row' a) as [row |]; [| discriminate].
    destruct (activity_rows' rest) as [rows' |]; [| discriminate].
    inversion Hrows; subst. simpl. f_equal. apply IH. reflexivity.
Qed.

Lemma activity_rows_throws (activities : list Activity.t) :
  activity_rows' activities = None <->
  exists a, In a activities /\ parseISO (Activity.date a) = Js.NaN.
Proof.
  induction activities as [| a rest IH]; simpl.
  - split; [discriminate | intros (a & [] & _)].
  - unfold activity_row at 1.
    destruct (parseISO (Activity.date a)) as [| d] eqn:Hd.
    + split; [| reflexivity]. intros _. exists a. auto.
    + destruct (activity_rows' rest) as [rows |] eqn:Hrest; simpl.
      * split; [discriminate |].
        intros (b & [Hb | Hb] & Hnan); [subst; congruence |].
        destruct IH as [_ IH]. discriminate IH. exists b. auto.
      * split; [| reflexivity]. intros _.
        destruct IH as [IH _]. destruct (IH eq_refl) as (b & Hb & Hnan).
        exists b. auto.
Qed.

(** X6: rendering the recent-attendance list throws exactly when one of
    the (at most three) activities it shows has an unparsable [date];
    unparsable clock-in or clock-out times do not make it throw, and when
    it does not throw there is one row per shown activity, at most
    three. *)
Theorem render_history_throws (h : Hooks) :
  (render_history' h = None <->
   exists a, In a (history_rows h) /\ parseISO (Activity.date a) = Js.NaN) /\
  (forall rows, render_history' h = Some rows ->
     length rows = length (history_rows h) /\ (length rows <= 3)%nat).
Proof.
  split.
  - apply activity_rows_throws.
  - intros rows Hrows. unfold render_history in Hrows.
    apply activity_rows_length in Hrows. split; [exact Hrows |].
    rewrite Hrows. unfold history_rows. apply firstn_le_length.
Qed.

End MoreFormatting.

(** ** More properties: the widget *)

Section MoreWidget.

Variable Date_getTime : string -> Js.number.
Variable parseISO : string -> Js.number.
Variable format_HHmmss : Z -> string.
Variable format_MMMddyyyy : Z -> string.

Local Abbreviation step' :=
  (step Date_getTime parseISO format_HHmmss format_MMMddyyyy).
Local Abbreviation run' :=
  (run Date_getTime parseISO format_HHmmss format_MMMddyyyy).
Local Abbreviation reachable' :=
  (reachable Date_getTime parseISO format_HHmmss format_MMMddyyyy).
Local Abbreviation updateTimer' := (updateTimer Date_getTime).
Local Abbreviation render_history' :=
  (render_history parseISO format_HHmmss format_MMMddyyyy).
Local Abbreviation clickable' :=
  (clickable parseISO format_HHmmss format_MMMddyyyy).
Local Abbreviation render' := (render parseISO format_HHmmss format_MMMddyyyy).
Local Abbreviation ticks' := (ticks Date_getTime).

Lemma updateTimer_twice (n1 n2 : Z) (w : World) :
  exec (updateTimer' n2) (exec (updateTimer' n1) w) = exec (updateTimer' n2) w.
Proof.
  destruct w as [[cur acts load el br rt] ts ds rq rf infl bt].
  destruct cur as [[id ci co bs be st loc th bd] |]; [| reflexivity].
  destruct st; destruct bs as [[| c s] |]; reflexivity.
Qed.

(** X7: a tick overwrites what earlier ticks left: after any ticks, one
    more tick gives the state that this tick alone would have given; and
    without a session, or with a completed one, a tick changes nothing. *)
Theorem updateTimer_last_wins (w : World) (now : Z) :
  (forall nows : list Z,
     ticks' (nows ++ [now]) w = exec (updateTimer' now) w) /\
  (timer_running (ui w) = false -> exec (updateTimer' now) w = w).
Proof.
  split.
  - intros nows. revert w.
    induction nows as [| n rest IH]; intros w.
    + reflexivity.
    + change (ticks' ((n :: rest) ++ [now]) w)
        with (ticks' (rest ++ [now]) (exec (updateTimer' n) w)).
      rewrite IH. apply updateTimer_twice.
  - unfold timer_running, exec, updateTimer.
    destruct (currentEntry (ui w)) as [e |]; [| reflexivity].
    destruct (Entry.status e); simpl; try discriminate.
    destruct (Entry.break_start e); reflexivity.
Qed.

(** X8: for an active session with a parsable clock-in, the elapsed time
    moves with the clock: between two ticks it grows by the time between
    them, so it never decreases while the clock does not. *)
Theorem elapsed_follows_clock (w : World) (e : Entry.t) (t n1 n2 : Z) :
  currentEntry (ui w) = Some e -> Entry.status e = active ->
  Date_getTime (Entry.clock_in e) = Js.Num t ->
  n1 <= n2 ->
  exists a b : Z,
    elapsedTime (ui (exec (updateTimer' n1) w)) = Js.Num a /\
    elapsedTime (ui (exec (updateTimer' n2) (exec (updateTimer' n1) w))) = Js.Num b /\
    b - a = n2 - n1 /\ a <= b.
Proof.
  intros Hcur Hst Ht Hle.
  exists (n1 - t), (n2 - t).
  rewrite updateTimer_twice.
  unfold exec, updateTimer. rewrite Hcur, Hst, Ht. simpl.
  repeat split; lia.
Qed.

Lemma handle_ui (op : Op) (w : World) :
  currentEntry (ui (handle op w)) = currentEntry (ui w) /\
  recentActivities (ui (handle op w)) = recentActivities (ui w) /\
  toasts (handle op w) = toasts w /\
  dispatched (handle op w) = dispatched w.
Proof.
  destruct op; simpl;
    unfold handleClockIn, handleClockOut, handleStartBreak, handleEndBreak;
    destruct (isLoading (page w)); simpl; auto.
Qed.

Lemma handleClockIn_user_ui (u : AuthOutcome) (w : World) :
  currentEntry (ui (handleClockIn_user u w)) = currentEntry (ui w) /\
  recentActivities (ui (handleClockIn_user u w)) = recentActivities (ui w) /\
  dispatched (handleClockIn_user u w) = dispatched w.
Proof.
  destruct u; simpl; auto.
Qed.

Lemma handle_response_cases (op : Op) (o : FetchOutcome Entry.t) (w : World) :
  let w' := handle_response op o w in
  isLoading (ui w') = false /\
  ((exists title,
      toasts w' = (toasts w ++ [toast_success title])%list /\
      dispatched w' = (dispatched w ++ ["timeTrackingChanged"])%list /\
      refreshTimers w' = S (refreshTimers w) /\
      reports_success o = true) \/
   (exists message,
      toasts w' = (toasts w ++ [toast_error message])%list /\
      dispatched w' = dispatched w /\
      refreshTimers w' = refreshTimers w /\
      ui w' = ui (exec (setIsLoading false) w))).
Proof.
  destruct op;
    destruct o as [| s [[[] [[id ci co bs be st loc [| q | json] bd] |] err] |]];
    simpl; (split; [reflexivity |]);
    first [ left; eexists; repeat split; reflexivity
          | right; eexists; repeat split; reflexivity ].
Qed.

(** X9: every settled response of a mutating request clears the busy
    flag and shows exactly one toast.  With a success toast the change
    event is dispatched and one refresh of the history is scheduled, and
    the response reported success; with an error toast nothing is
    dispatched or scheduled and no state cell other than the busy flag
    changes. *)
Theorem settled_response_one_toast (op : Op) (o : FetchOutcome Entry.t) (w : World) :
  let w' := handle_response op o w in
  isLoading (ui w') = false /\
  ((exists title,
      toasts w' = (toasts w ++ [toast_success title])%list /\
      dispatched w' = (dispatched w ++ ["timeTrackingChanged"])%list /\
      refreshTimers w' = S (refreshTimers w) /\
      reports_success o = true) \/
   (exists message,
      toasts w' = (toasts w ++ [toast_error message])%list /\
      dispatched w' = dispatched w /\
      refreshTimers w' = refreshTimers w /\
      ui w' = ui (exec (setIsLoading false) w))).
Proof. exact (handle_response_cases op o w). Qed.

(** X10: the text of the error toast.  When the response reports failure
    it is the server's [error] if that is a non-empty string and the
    handler's own text otherwise; when the request throws or the body
    cannot be read it is the handler's own text. *)
Theorem error_toast_text (op : Op) (w : World) :
  (forall s d err,
     toasts (handle_response op
               (Replied s (Some {| success := false; data := d; error := err |})) w)
     = (toasts w ++ [toast_error (Js.or_else err (fallback op))])%list) /\
  (forall s d message,
     message <> "" ->
     toasts (handle_response op
               (Replied s (Some {| success := false; data := d;
                                   error := Some message |})) w)
     = (toasts w ++ [toast_error message])%list) /\
  toasts (handle_response op Rejected w)
  = (toasts w ++ [toast_error (fallback op)])%list /\
  (forall s, toasts (handle_response op (Replied s None) w)
             = (toasts w ++ [toast_error (fallback op)])%list).
Proof.
  split; [| split; [| split]].
  - intros s d err. destruct op; reflexivity.
  - intros s d message Hne.
    destruct message as [| c rest]; [congruence |]. destruct op; reflexivity.
  - destruct op; reflexivity.
  - intros s. destruct op; reflexivity.
Qed.

(** X11: the widget never advances the session by itself: an event
    changes the local current session only if it is the mount's
    current-session fetch, or the settled response of a mutating request
    that reports success. *)
Theorem session_changes_only_on_answers (ev : Event) (w w' : World) :
  step' ev w = Some w' ->
  currentEntry (ui w') <> currentEntry (ui w) ->
  (exists u o, ev = InitCurrent u o) \/
  (exists op o, ev = ResponseSettled op o /\ reports_success o = true).
Proof.
  intros Hstep Hchanged.
  destruct ev as [u | u o | u o | | b | op | u | op o | u o | now |];
    simpl in Hstep.
  - exfalso. apply Hchanged.
    destruct (boot w); try discriminate; destruct u; inversion Hstep; reflexivity.
  - left. eauto.
  - exfalso. apply Hchanged.
    destruct (boot w) as [| c [] | | |]; try discriminate.
    inversion Hstep; subst.
    destruct (fetchRecentActivities_frame u o w) as (_ & _ & _ & _ & Hc).
    exact Hc.
  - exfalso. apply Hchanged.
    destruct (boot w); try discriminate. inversion Hstep; reflexivity.
  - exfalso. apply Hchanged.
    destruct (clickable' b (page w)); try discriminate.
    inversion Hstep; subst.
    destruct (onClick_handle b w) as [op ->]. apply handle_ui.
  - exfalso. apply Hchanged. inversion Hstep; subst. apply handle_ui.
  - exfalso. apply Hchanged.
    destruct (resume _ _) as [rest |]; try discriminate.
    inversion Hstep; subst.
    destruct (handleClockIn_user_ui u (with_inflight (fun _ => rest) w)) as (Hc & _).
    exact Hc.
  - right. exists op, o. split; [reflexivity |].
    destruct (resume _ _) as [rest |]; try discriminate.
    inversion Hstep; subst.
    destruct (handle_response_cases op o (with_inflight (fun _ => rest) w))
      as (_ & [(t & _ & _ & _ & Hs) | (m & _ & _ & _ & Hui)]); [exact Hs |].
    exfalso. apply Hchanged. rewrite Hui. reflexivity.
  - exfalso. apply Hchanged.
    destruct (refreshTimers w); try discriminate.
    inversion Hstep; subst.
    destruct (fetchRecentActivities_frame u o (take_refreshTimer w))
      as (_ & _ & _ & _ & Hc).
    exact Hc.
  - exfalso. apply Hchanged.
    destruct (timer_running (ui w)); try discriminate.
    inversion Hstep; subst.
    destruct (updateTimer_frame Date_getTime now w) as (_ & _ & _ & _ & Hc).
    exact Hc.
  - exfalso. apply Hchanged. inversion Hstep; reflexivity.
Qed.

Lemma idle_step (ev : Event) (w w' : World) :
  (boot w = Booted -> inflight w = [] -> isLoading (ui w) = false) ->
  step' ev w = Some w' ->
  boot w' = Booted -> inflight w' = [] -> isLoading (ui w') = false.
Proof.
  intros Hidle Hstep Hb' Hi'.
  destruct ev as [u | u o | u o | | b | op | u | op o | u o | now |];
    simpl in Hstep.
  - destruct (boot w); try discriminate;
      destruct u; inversion Hstep; subst; discriminate.
  - destruct (boot w) as [| [] a | | |]; try discriminate.
    inversion Hstep; subst. unfold fetcher_done in Hb'. simpl in Hb'.
    destruct a; discriminate.
  - destruct (boot w) as [| c [] | | |]; try discriminate.
    inversion Hstep; subst. unfold fetcher_done in Hb'. simpl in Hb'.
    destruct c; discriminate.
  - destruct (boot w); try discriminate. inversion Hstep; reflexivity.
  - destruct (clickable' b (page w)); try discriminate.
    inversion Hstep; subst.
    destruct (onClick_handle b w) as [op Hop]. rewrite Hop in *.
    destruct (isLoading (page w)) eqn:Hload.
    + rewrite handle_busy in * by exact Hload. auto.
    + destruct (handle_idle op w Hload) as (p & Hi & _). congruence.
  - inversion Hstep; subst.
    destruct (isLoading (page w)) eqn:Hload.
    + rewrite handle_busy in * by exact Hload. auto.
    + destruct (handle_idle op w Hload) as (p & Hi & _). congruence.
  - destruct (resume _ _) as [rest |]; try discriminate.
    inversion Hstep; subst.
    destruct (handleClockIn_user_next u (with_inflight (fun _ => rest) w))
      as (_ & [[_ Hl] | [Hi _]]); [exact Hl | congruence].
  - destruct (resume _ _) as [rest |]; try discriminate.
    inversion Hstep; subst.
    apply (handle_response_ends op o (with_inflight (fun _ => rest) w)).
  - destruct (refreshTimers w); try discriminate.
    inversion Hstep; subst.
    destruct (fetchRecentActivities_frame u o (take_refreshTimer w))
      as (Hl & Hi & Hb & _).
    rewrite Hl. rewrite Hi in Hi'. rewrite Hb in Hb'. simpl in *. auto.
  - destruct (timer_running (ui w)); try discriminate.
    inversion Hstep; subst.
    destruct (updateTimer_frame Date_getTime now w) as (Hl & Hi & Hb & _).
    rewrite Hl. rewrite Hi in Hi'. rewrite Hb in Hb'. auto.
  - inversion Hstep; subst. simpl in *. auto.
Qed.

(** X12: the busy flag is never left behind: in every state the mounted
    widget can reach, when no handler is under way the busy flag is
    down. *)
Theorem idle_widget_not_busy (w : World) :
  reachable' w -> boot w = Booted -> inflight w = [] ->
  isLoading (ui w) = false.
Proof.
  induction 1 as [| ev w w' Hreach IH Hstep].
  - discriminate.
  - exact (idle_step ev w w' IH Hstep).
Qed.

Lemma step_keeps_boot (ev : Event) (w w' : World) :
  step' ev w = Some w' ->
  match ev with
  | InitUser _ | InitCurrent _ _ | InitActivities _ _ | InitTimeout => True
  | _ => boot w' = boot w
  end.
Proof.
  intros Hstep.
  destruct ev as [u | u o | u o | | b | op | u | op o | u o | now |];
    simpl in Hstep; try exact I.
  - destruct (clickable' b (page w)); try discriminate.
    inversion Hstep; subst.
    destruct (onClick_handle b w) as [op ->]. apply handle_boot.
  - inversion Hstep; subst. apply handle_boot.
  - destruct (resume _ _) as [rest |]; try discriminate.
    inversion Hstep; subst.
    apply (handleClockIn_user_next u (with_inflight (fun _ => rest) w)).
  - destruct (resume _ _) as [rest |]; try discriminate.
    inversion Hstep; subst.
    apply (handle_response_ends op o (with_inflight (fun _ => rest) w)).
  - destruct (refreshTimers w); try discriminate.
    inversion Hstep; subst.
    apply (fetchRecentActivities_frame u o (take_refreshTimer w)).
  - destruct (timer_running (ui w)); try discriminate.
    inversion Hstep; subst.
    apply (updateTimer_frame Date_getTime now w).
  - inversion Hstep; reflexivity.
Qed.

Lemma pristine_step (ev : Event) (w w' : World) :
  pristine w -> boot w = BootAuth \/ boot w = BootFailed ->
  step' ev w = Some w' ->
  (exists u, ev = InitUser u /\ boot w = BootAuth /\ pristine w') \/ w' = w.
Proof.
  intros (Hui & Ht & Hd & Hr & Hf & Hi & Hp) Hboot Hstep.
  destruct ev as [u | u o | u o | | b | op | u | op o | u o | now |];
    simpl in Hstep.
  - left. exists u. destruct (boot w) eqn:Hb; try discriminate.
    destruct u; inversion Hstep; subst; repeat split; assumption.
  - destruct Hboot as [Hb | Hb]; rewrite Hb in Hstep; discriminate.
  - destruct Hboot as [Hb | Hb]; rewrite Hb in Hstep; discriminate.
  - destruct Hboot as [Hb | Hb]; rewrite Hb in Hstep; discriminate.
  - unfold clickable, render in Hstep. rewrite Hp in Hstep. discriminate.
  - right. inversion Hstep; subst. apply handle_busy. rewrite Hp. reflexivity.
  - rewrite Hi in Hstep. discriminate.
  - rewrite Hi in Hstep. discriminate.
  - rewrite Hf in Hstep. discriminate.
  - unfold timer_running in Hstep. rewrite Hui in Hstep. discriminate.
  - right. inversion Hstep; subst. unfold commit.
    destruct w as [h ts ds rq rf infl bt pg]. simpl in *. congruence.
Qed.

Lemma reachable_pristine (w : World) :
  reachable' w -> boot w = BootAuth \/ boot w = BootFailed -> pristine w.
Proof.
  induction 1 as [| ev w w' Hreach IH Hstep]; intros Hboot.
  - repeat split.
  - assert (Hprev : boot w = BootAuth \/ boot w = BootFailed).
    { pose proof (step_keeps_boot ev w w' Hstep) as Hkeep.
      destruct ev as [u | u o | u o | | b | op | u | op o | u o | now |];
        try (rewrite <- Hkeep; exact Hboot); simpl in Hstep.
      - destruct (boot w); try discriminate. auto.
      - destruct (boot w) as [| [] a | | |]; try discriminate.
        inversion Hstep; subst. unfold fetcher_done in Hboot; simpl in Hboot.
        destruct a; destruct Hboot; discriminate.
      - destruct (boot w) as [| c [] | | |]; try discriminate.
        inversion Hstep; subst. unfold fetcher_done in Hboot; simpl in Hboot.
        destruct c; destruct Hboot; discriminate.
      - destruct (boot w); try discriminate.
        inversion Hstep; subst. destruct Hboot; discriminate. }
    destruct (pristine_step ev w w' (IH Hprev) Hprev Hstep)
      as [(u & _ & _ & Hp) | ->]; [exact Hp | exact (IH Hprev)].
Qed.

(** X13: [initializeWidget] awaits [getCurrentUser()] outside any [try]:
    when that promise rejects, neither fetcher runs and the 150 ms
    timeout is never set, so the widget stays as it is for good: whatever
    happens afterwards, the state does not change, the page is the
    skeleton and no request has been sent. *)
Theorem mount_rejection_is_final (w : World) :
  reachable' w -> boot w = BootFailed ->
  forall (evs : list Event) (w' : World),
    run' evs w = Some w' ->
    w' = w /\ render' (ui w') = Skeleton /\ requests w' = [].
Proof.
  intros Hreach Hb.
  pose proof (reachable_pristine w Hreach (or_intror Hb)) as Hp.
  intros evs. induction evs as [| ev rest IH]; intros w' Hrun; simpl in Hrun.
  - inversion Hrun; subst. destruct Hp as (Hui & _ & _ & Hr & _).
    repeat split; [| exact Hr]. unfold render. rewrite Hui. reflexivity.
  - destruct (step' ev w) as [w1 |] eqn:Hstep; try discriminate.
    destruct (pristine_step ev w w1 Hp (or_intror Hb) Hstep)
      as [(u & _ & Hauth & _) | ->]; [congruence |].
    exact (IH w' Hrun).
Qed.

(** X14: neither fetcher of the mount can fail it: from the state where
    both are under way, whatever their awaited calls answer and in
    whichever order they complete, the 150 ms timeout is set and, when it
    fires, the widget is mounted, not busy and has shown no toast.  The
    render that follows shows the content, unless one of the retained
    activities has an unparsable date: then, and only then, it throws. *)
Theorem mount_completes (w : World)
    (u1 u2 : AuthOutcome) (o1 : FetchOutcome Entry.t)
    (o2 : FetchOutcome (list Activity.t)) :
  reachable' w -> boot w = BootFetching false false ->
  forall evs,
    evs = [InitCurrent u1 o1; InitActivities u2 o2; InitTimeout] \/
    evs = [InitActivities u2 o2; InitCurrent u1 o1; InitTimeout] ->
    exists w', run' evs w = Some w' /\
               boot w' = Booted /\ isLoading (ui w') = false /\
               inflight w' = [] /\ toasts w' = [] /\
               (render_history' (ui w') <> None ->
                exists c, render' (page (commit w')) = Shown c) /\
               (render_history' (ui w') = None ->
                render' (page (commit w')) = RenderThrows).
Proof.
  intros Hreach Hb evs Hevs.
  destruct (reachable_mounting_inv _ _ _ _ w Hreach)
    as [Hbooted | (Hl & Hi & Ht & _)]; [congruence |].
  destruct (fetchCurrentEntry_frame u1 o1 w) as (_ & Hi1 & _ & Ht1 & _).
  destruct (fetchRecentActivities_frame u2 o2 w) as (_ & Hi2 & _ & Ht2 & _).
  destruct Hevs as [-> | ->]; simpl; rewrite Hb; simpl.
  - destruct (fetchRecentActivities_frame u2 o2
                (fetcher_done true false (exec (fetchCurrentEntry u1 o1) w)))
      as (_ & Hi3 & _ & Ht3 & _).
    eexists. split; [reflexivity |]. simpl.
    split; [reflexivity |]. split; [reflexivity |].
    split; [rewrite Hi3; simpl; congruence |].
    split; [rewrite Ht3; simpl; congruence |].
    split; intros Hrows.
    + eexists. apply render_not_loading; [reflexivity | exact Hrows].
    + apply render_throws; [reflexivity | exact Hrows].
  - destruct (fetchCurrentEntry_frame u1 o1
                (fetcher_done false true (exec (fetchRecentActivities u2 o2) w)))
      as (_ & Hi3 & _ & Ht3 & _).
    eexists. split; [reflexivity |]. simpl.
    split; [reflexivity |]. split; [reflexivity |].
    split; [rewrite Hi3; simpl; congruence |].
    split; [rewrite Ht3; simpl; congruence |].
    split; intros Hrows.
    + eexists. apply render_not_loading; [reflexivity | exact Hrows].
    + apply render_throws; [reflexivity | exact Hrows].
Qed.

(** X15: the page offers clock-out only for an active session: on a
    page whose session is on break or completed no button can be clicked
    at all, and a click on the clock-out button happens only on a page
    whose session is active and whose busy flag is down. *)
Theorem clock_out_only_when_active (w : World) :
  (forall e, currentEntry (page w) = Some e -> Entry.status e <> active ->
     action_buttons (page w) = [] /\ forall b, step' (Click b) w = None) /\
  (forall d w', step' (Click (ClockOutButton d)) w = Some w' ->
     exists e, currentEntry (page w) = Some e /\ Entry.status e = active /\
               d = false /\ isLoading (page w) = false).
Proof.
  split.
  - intros e Hcur Hst.
    assert (Hnone : action_buttons (page w) = []).
    { unfold action_buttons. rewrite Hcur.
      destruct (Entry.status e); [congruence | reflexivity | reflexivity]. }
    split; [exact Hnone |].
    intros b. simpl. unfold clickable, render.
    destruct (isLoading (page w)); [reflexivity |].
    destruct (render_history' (page w)); [| reflexivity].
    cbn [buttons]. rewrite Hnone. reflexivity.
  - intros d w' Hstep. simpl in Hstep.
    unfold clickable, render in Hstep.
    destruct (isLoading (page w)) eqn:Hload; [discriminate |].
    destruct (render_history' (page w)); [| discriminate].
    cbn [buttons] in Hstep. unfold action_buttons in Hstep.
    destruct (currentEntry (page w)) as [e |]; [| simpl in Hstep; discriminate].
    exists e. rewrite Hload in Hstep.
    destruct (Entry.status e); simpl in Hstep; try discriminate.
    destruct d; simpl in Hstep; try discriminate. auto.
Qed.

(** X16: whenever the page shows its content there is at most one action
    button, and every button on it can be clicked: the [disabled]
    attribute of a shown button is never set, because the content is
    shown only while the busy flag is down. *)
Theorem shown_buttons_enabled (h : Hooks) (c : Content) :
  render' h = Shown c ->
  (length (buttons c) <= 1)%nat /\
  forall b, In b (buttons c) ->
            disabled_of b = false /\ clickable' b h = true.
Proof.
  unfold render. destruct (isLoading h) eqn:Hload; [discriminate |].
  destruct (render_history' h) as [rows |] eqn:Hrows; [| discriminate].
  intros Heq. inversion Heq; subst c; clear Heq. cbn [buttons].
  assert (Hcases : action_buttons h = [] \/
                   action_buttons h = [ClockOutButton false] \/
                   action_buttons h = [ClockInButton false]).
  { unfold action_buttons. rewrite Hload.
    destruct (currentEntry h) as [e |]; [| auto].
    destruct (Status_eqb (Entry.status e) active); auto. }
  split.
  - destruct Hcases as [-> | [-> | ->]]; simpl; lia.
  - intros b Hin. unfold clickable, render. rewrite Hload, Hrows. cbn [buttons].
    destruct Hcases as [Hc | [Hc | Hc]]; rewrite Hc in *; simpl in Hin;
      try contradiction; destruct Hin as [<- | []]; split; reflexivity.
Qed.

Lemma fetchRecentActivities_effect (u : AuthOutcome)
    (o : FetchOutcome (list Activity.t)) (w : World) :
  let w' := exec (fetchRecentActivities u o) w in
  toasts w' = toasts w /\ dispatched w' = dispatched w /\
  (requests w' = requests w \/ requests w' = (requests w ++ [GET_history])%list) /\
  (ui w' = ui w \/
   exists uid s entries err,
     u = SignedIn uid /\
     o = Replied s (Some {| success := true; data := Some entries; error := err |}) /\
     200 <= s <= 299 /\
     recentActivities (ui w') = firstn 3 entries).
Proof.
  destruct u as [| | uid]; destruct o as [| s [[flag [l |] err] |]];
    unfold exec, fetchRecentActivities, try_catch, bind; simpl;
    try (destruct (ok _) eqn:Hok); try destruct flag; simpl; auto 10.
  repeat split; auto. right. exists uid, s, l, err.
  unfold ok in Hok; simpl in Hok.
  apply andb_true_iff in Hok. destruct Hok as [H1 H2].
  apply Z.leb_le in H1. apply Z.leb_le in H2. auto.
Qed.

(** X17: a history fetch never shows a toast and never dispatches an
    event, and it leaves every state cell as it was unless a signed-in
    user got a 2xx response whose body reports success and carries a
    list; then the retained list is the first three entries of it. *)
Theorem history_fetch_effect (u : AuthOutcome)
    (o : FetchOutcome (list Activity.t)) (w : World) :
  let w' := exec (fetchRecentActivities u o) w in
  toasts w' = toasts w /\ dispatched w' = dispatched w /\
  (ui w' = ui w \/
   exists uid s entries err,
     u = SignedIn uid /\
     o = Replied s (Some {| success := true; data := Some entries; error := err |}) /\
     200 <= s <= 299 /\
     recentActivities (ui w') = firstn 3 entries).
Proof.
  destruct (fetchRecentActivities_effect u o w) as (Ht & Hd & _ & Hui). auto.
Qed.

Lemma handle_response_recent (op : Op) (o : FetchOutcome Entry.t) (w : World) :
  recentActivities (ui (handle_response op o w)) = recentActivities (ui w) /\
  requests (handle_response op o w) = requests w.
Proof.
  destruct op;
    destruct o as [| s [[[] [[id ci co bs be st loc [| q | json] bd] |] err] |]];
    simpl; auto.
Qed.

Lemma updateTimer_recent (now : Z) (w : World) :
  recentActivities (ui (exec (updateTimer' now) w)) = recentActivities (ui w) /\
  requests (exec (updateTimer' now) w) = requests w.
Proof.
  destruct w as [[cur acts load el br rt] ts ds rq rf infl bt].
  destruct cur as [[id ci co bs be st loc th bd] |]; [| auto].
  destruct st; destruct bs as [[| c s] |]; auto.
Qed.

Lemma step_recent (ev : Event) (w w' : World) :
  step' ev w = Some w' ->
  recentActivities (ui w') = recentActivities (ui w) \/
  exists entries, recentActivities (ui w') = firstn 3 entries.
Proof.
  intros Hstep.
  destruct ev as [u | u o | u o | | b | op | u | op o | u o | now |];
    simpl in Hstep.
  - left. destruct (boot w); try discriminate;
      destruct u; inversion Hstep; reflexivity.
  - left. destruct (boot w) as [| [] a | | |]; try discriminate.
    inversion Hstep; subst. apply (fetchCurrentEntry_frame u o w).
  - destruct (boot w) as [| c [] | | |]; try discriminate.
    inversion Hstep; subst.
    destruct (fetchRecentActivities_effect u o w)
      as (_ & _ & _ & [Hui | (uid & s & entries & err & _ & _ & _ & Hrec)]).
    + left. unfold fetcher_done; simpl. rewrite Hui. reflexivity.
    + right. exists entries. exact Hrec.
  - left. destruct (boot w); try discriminate. inversion Hstep; reflexivity.
  - left. destruct (clickable' b (page w)); try discriminate.
    inversion Hstep; subst.
    destruct (onClick_handle b w) as [op ->]. apply handle_ui.
  - left. inversion Hstep; subst. apply handle_ui.
  - left. destruct (resume _ _) as [rest |]; try discriminate.
    inversion Hstep; subst.
    apply (handleClockIn_user_ui u (with_inflight (fun _ => rest) w)).
  - left. destruct (resume _ _) as [rest |]; try discriminate.
    inversion Hstep; subst.
    apply (handle_response_recent op o (with_inflight (fun _ => rest) w)).
  - destruct (refreshTimers w); try discriminate.
    inversion Hstep; subst.
    destruct (fetchRecentActivities_effect u o (take_refreshTimer w))
      as (_ & _ & _ & [Hui | (uid & s & entries & err & _ & _ & _ & Hrec)]).
    + left. rewrite Hui. reflexivity.
    + right. exists entries. exact Hrec.
  - left. destruct (timer_running (ui w)); try discriminate.
    inversion Hstep; subst. apply updateTimer_recent.
  - left. inversion Hstep; reflexivity.
Qed.

(** X18: in every state the widget can reach the retained history has at
    most three entries, so the second [slice(0, 3)], the one in the JSX,
    never drops an entry: every retained activity gets its row. *)
Theorem retained_history_at_most_three (w : World) :
  reachable' w ->
  (length (recentActivities (ui w)) <= 3)%nat /\
  history_rows (ui w) = recentActivities (ui w).
Proof.
  intros Hreach.
  assert (Hlen : (length (recentActivities (ui w)) <= 3)%nat).
  { induction Hreach as [| ev w w' _ IH Hstep].
    - simpl. lia.
    - destruct (step_recent ev w w' Hstep) as [-> | [entries ->]];
        [exact IH | apply firstn_le_length]. }
  split; [exact Hlen |].
  unfold history_rows. apply firstn_all2. exact Hlen.
Qed.

(** X19: the current-session fetch treats every status outside 200..299
    like 404 and 401 (a 500 as well): the local session becomes none, no
    toast is shown and the Live mark is not touched; the Live mark is set
    when a 2xx response with a readable body arrives. *)
Theorem current_fetch_by_status (w : World) (uid : string) (s : Z) :
  (~ 200 <= s <= 299 ->
   forall body,
     let w' := exec (fetchCurrentEntry (SignedIn uid) (Replied s body)) w in
     currentEntry (ui w') = None /\ toasts w' = toasts w /\
     isRealTime (ui w') = isRealTime (ui w)) /\
  (200 <= s <= 299 ->
   forall result,
     let w' := exec (fetchCurrentEntry (SignedIn uid) (Replied s (Some result))) w in
     isRealTime (ui w') = true /\ currentEntry (ui w') = data result /\
     toasts w' = toasts w).
Proof.
  split.
  - intros Hs body w'.
    assert (Hok : ok (s, body) = false).
    { unfold ok; simpl. apply andb_false_iff.
      destruct (Z.leb_spec 200 s); [| auto].
      destruct (Z.leb_spec s 299); [lia | auto]. }
    unfold w', exec, fetchCurrentEntry, try_catch, bind; simpl.
    rewrite Hok. simpl. auto.
  - intros Hs result w'.
    assert (Hok : ok (s, Some result) = true).
    { unfold ok; simpl. apply andb_true_iff. split; apply Z.leb_le; lia. }
    unfold w', exec, fetchCurrentEntry, try_catch, bind; simpl.
    rewrite Hok. simpl. auto.
Qed.

(** X20: clock-in asks who the user is before it sends anything.  With
    nobody signed in it sends no request, shows
    [Please log in to clock in] and ends; when the question itself
    throws it sends no request, shows [Failed to clock in] and ends; for
    a signed-in user it shows nothing and sends exactly one clock-in
    request, for whose response it waits. *)
Theorem clock_in_asks_for_user (w : World) :
  (let w' := handleClockIn_user Anonymous w in
   requests w' = requests w /\
   toasts w' = (toasts w ++ [toast_error "Please log in to clock in"])%list /\
   isLoading (ui w') = false /\ inflight w' = inflight w /\
   currentEntry (ui w') = currentEntry (ui w)) /\
  (let w' := handleClockIn_user AuthRejected w in
   requests w' = requests w /\
   toasts w' = (toasts w ++ [toast_error "Failed to clock in"])%list /\
   isLoading (ui w') = false /\ inflight w' = inflight w /\
   currentEntry (ui w') = currentEntry (ui w)) /\
  (forall uid,
     let w' := handleClockIn_user (SignedIn uid) w in
     requests w' = (requests w ++ [POST_action ClockIn])%list /\
     toasts w' = toasts w /\
     inflight w' = AwaitResponse ClockIn :: inflight w /\
     ui w' = ui w).
Proof.
  repeat split.
Qed.

Lemma resume_sub (p : Pending) (P : Pending -> Prop) (l : list Pending) :
  forall rest, resume p l = Some rest -> Forall P l ->
               Forall P rest /\ exists q, Pending_eqb p q = true /\ P q.
Proof.
  induction l as [| q l IH]; intros rest Hres Hall; simpl in Hres.
  - discriminate.
  - inversion Hall as [| ? ? Hq Hl]; subst.
    destruct (Pending_eqb p q) eqn:Heq.
    + inversion Hres; subst. split; [exact Hl |]. exists q. auto.
    + destruct (resume p l) as [rest' |]; [| discriminate].
      inversion Hres; subst.
      destruct (IH rest' eq_refl Hl) as [Hrest Hex].
      split; [constructor; assumption | exact Hex].
Qed.

Lemma fetchCurrentEntry_requests (u : AuthOutcome) (o : FetchOutcome Entry.t)
    (w : World) :
  requests (exec (fetchCurrentEntry u o) w) = requests w \/
  requests (exec (fetchCurrentEntry u o) w)
  = (requests w ++ [POST_get_current])%list.
Proof.
  destruct u; destruct o as [| s [b |]];
    unfold exec, fetchCurrentEntry, try_catch, bind; simpl;
    try destruct (ok _); simpl; auto.
Qed.

Lemma page_step (ev : Event) (w w' : World) :
  no_break_traffic w -> from_page ev = true -> step' ev w = Some w' ->
  no_break_traffic w'.
Proof.
  intros [Hreq Hinf] Hpage Hstep.
  assert (Hsnoc : forall r, is_break_request r = false ->
            Forall (fun r => is_break_request r = false) (requests w ++ [r])).
  { intros r Hr. apply Forall_app. split; [exact Hreq | repeat constructor; exact Hr]. }
  destruct ev as [u | u o | u o | | b | op | u | op o | u o | now |];
    simpl in Hstep; try discriminate Hpage.
  - destruct (boot w); try discriminate;
      destruct u; inversion Hstep; subst; split; assumption.
  - destruct (boot w) as [| [] a | | |]; try discriminate.
    inversion Hstep; subst.
    destruct (fetchCurrentEntry_frame u o w) as (_ & Hi & _).
    split; unfold fetcher_done; simpl; [| rewrite Hi; exact Hinf].
    destruct (fetchCurrentEntry_requests u o w) as [-> | ->]; auto.
  - destruct (boot w) as [| c [] | | |]; try discriminate.
    inversion Hstep; subst.
    destruct (fetchRecentActivities_frame u o w) as (_ & Hi & _).
    split; unfold fetcher_done; simpl; [| rewrite Hi; exact Hinf].
    destruct (fetchRecentActivities_effect u o w) as (_ & _ & [-> | ->] & _); auto.
  - destruct (boot w); try discriminate.
    inversion Hstep; subst. split; assumption.
  - destruct (clickable' b (page w)); try discriminate.
    inversion Hstep; subst.
    destruct b; simpl; unfold handleClockOut, handleClockIn;
      destruct (isLoading (page w)); simpl; split; simpl; auto;
      try (apply Hsnoc; reflexivity);
      try (constructor; [reflexivity | assumption]).
  - destruct (resume AwaitUser (inflight w)) as [rest |] eqn:Hres; try discriminate.
    inversion Hstep; subst.
    destruct (resume_sub _ _ _ rest Hres Hinf) as [Hrest _].
    destruct u; simpl; split; simpl; auto;
      try (apply Hsnoc; reflexivity);
      try (constructor; [reflexivity | assumption]).
  - destruct (resume (AwaitResponse op) (inflight w)) as [rest |] eqn:Hres;
      try discriminate.
    inversion Hstep; subst.
    destruct (resume_sub _ _ _ rest Hres Hinf) as [Hrest _].
    destruct (handle_response_recent op o (with_inflight (fun _ => rest) w))
      as [_ Hrq].
    destruct (handle_response_ends op o (with_inflight (fun _ => rest) w))
      as (Hi & _).
    split; [rewrite Hrq | rewrite Hi]; assumption.
  - destruct (refreshTimers w); try discriminate.
    inversion Hstep; subst.
    destruct (fetchRecentActivities_frame u o (take_refreshTimer w)) as (_ & Hi & _).
    split; [| rewrite Hi; exact Hinf].
    destruct (fetchRecentActivities_effect u o (take_refreshTimer w))
      as (_ & _ & [-> | ->] & _); auto.
  - destruct (timer_running (ui w)); try discriminate.
    inversion Hstep; subst.
    destruct (updateTimer_frame Date_getTime now w) as (_ & Hi & _).
    destruct (updateTimer_recent now w) as [_ Hrq].
    split; [rewrite Hrq | rewrite Hi]; assumption.
  - inversion Hstep; subst. split; assumption.
Qed.

(** X21: the page has no way to start or end a break: in any run of the
    mounted widget that calls no handler directly (clicks, settled
    promises, timers and ticks only), no start-break or end-break request
    is ever sent, and the response of one cannot arrive. *)
Theorem page_never_sends_break (evs : list Event) (w : World) :
  run' evs mount = Some w ->
  forallb from_page evs = true ->
  Forall (fun r => is_break_request r = false) (requests w) /\
  forall op o, is_break_op op = true -> step' (ResponseSettled op o) w = None.
Proof.
  intros Hrun Hpage.
  assert (Hinv : no_break_traffic w).
  { assert (Hgen : forall evs w0 w1, no_break_traffic w0 ->
                     run' evs w0 = Some w1 -> forallb from_page evs = true ->
                     no_break_traffic w1).
    { clear. intros evs. induction evs as [| ev rest IH];
        intros w0 w1 Hinv Hrun Hpage; simpl in Hrun.
      - inversion Hrun; subst. exact Hinv.
      - simpl in Hpage. apply andb_true_iff in Hpage. destruct Hpage as [Hev Hrest].
        destruct (step' ev w0) as [w2 |] eqn:Hstep; try discriminate.
        exact (IH w2 w1 (page_step ev w0 w2 Hinv Hev Hstep) Hrun Hrest). }
    apply (Hgen evs mount w); [| exact Hrun | exact Hpage].
    split; constructor. }
  destruct Hinv as [Hreq Hinf]. split; [exact Hreq |].
  intros op o Hop. simpl.
  destruct (resume (AwaitResponse op) (inflight w)) as [rest |] eqn:Hres;
    [| reflexivity].
  destruct (resume_sub _ _ _ rest Hres Hinf) as (_ & q & Heq & Hq).
  destruct op; try discriminate Hop;
    destruct q as [| []]; simpl in Heq, Hq; discriminate.
Qed.

End MoreWidget.

(** ** The further properties on concrete sessions *)

Lemma formatTime_same_second_witness :
  5000 / 1000 = 5999 / 1000 /\
  formatTime (Js.Num 5000) = formatTime (Js.Num 5999).
Proof.
  assert (Ha : 0 <= 5000) by discriminate.
  assert (Hb : 0 <= 5999) by discriminate.
  split; [reflexivity |].
  exact (formatTime_same_second 5000 5999 Ha Hb eq_refl).
Defined.

Lemma formatTime_shape_witness :
  0 <= 3725999 < 100 * 60 * 60 * 1000 /\
  String.length (formatTime (Js.Num 3725999)) = 8%nat.
Proof.
  assert (Hms : 0 <= 3725999 < 100 * 60 * 60 * 1000)
    by (split; [discriminate | reflexivity]).
  destruct (formatTime_shape 3725999 Hms) as (hh & mm & ss & _ & _ & _ & _ & Hlen).
  split; [exact Hms | exact Hlen].
Defined.

Lemma formatTime_just_negative_witness :
  -1000 <= -250 < 0 /\ formatTime (Js.Num (-250)) = "-1:-1:-1".
Proof.
  assert (Hms : -1000 <= -250 < 0) by (split; [discriminate | reflexivity]).
  split; [exact Hms | exact (formatTime_just_negative (-250) Hms)].
Defined.

Lemma formatDetailedTime_not_positive_witness :
  -7200000 <= 0 /\ Z.rem (-7200000) 60000 = 0 /\
  formatDetailedTime (Js.Num (-7200000)) = "0s" /\
  formatDetailedTime (Js.Num (-61500)) = "-2s".
Proof.
  destruct formatDetailedTime_not_positive as [Hneg _].
  assert (H1 : -7200000 <= 0) by discriminate.
  assert (H2 : -61500 <= 0) by discriminate.
  split; [exact H1 |]. split; [reflexivity |].
  split; [exact (proj2 (Hneg _ H1) eq_refl) | exact (proj1 (Hneg _ H2))].
Defined.

Lemma formatActivityDuration_cases_witness :
  "2024-01-15T17:30:10.000Z" <> "" /\
  formatActivityDuration IsoSample.time_value "2024-01-15T09:00:00.000Z"
    (Some "2024-01-15T17:30:10.000Z") = "08:30:10" /\
  IsoSample.time_value "this morning" = Js.NaN /\
  formatActivityDuration IsoSample.time_value "this morning"
    (Some "2024-01-15T17:30:10.000Z") = "NaN:NaN:NaN".
Proof.
  assert (Hne : "2024-01-15T17:30:10.000Z" <> "") by discriminate.
  destruct (formatActivityDuration_cases IsoSample.time_value
              "2024-01-15T09:00:00.000Z") as (_ & _ & Hgood).
  destruct (formatActivityDuration_cases IsoSample.time_value
              "this morning") as (_ & _ & Hbad).
  split; [exact Hne |].
  split; [exact (proj1 (Hgood _ Hne)) |].
  split; [reflexivity |].
  exact (proj2 (Hbad _ Hne) (or_introl eq_refl)).
Defined.

Lemma render_history_throws_witness :
  let shown := hooks_with [sample_activity "a-2"; undated_activity] in
  let fine := hooks_with [sample_activity "a-2"; sample_activity "a-1"] in
  In undated_activity (history_rows shown) /\
  IsoSample.time_value (Activity.date undated_activity) = Js.NaN /\
  render_history IsoSample.time_value IsoSample.time_of_day day_number shown = None /\
  option_map (@length Row)
    (render_history IsoSample.time_value IsoSample.time_of_day day_number fine)
  = Some 2%nat.
Proof.
  intros shown fine.
  assert (Hin : In undated_activity (history_rows shown)) by (right; left; reflexivity).
  destruct (render_history_throws IsoSample.time_value IsoSample.time_of_day
              day_number shown) as [[_ Hthrows] _].
  destruct (render_history_throws IsoSample.time_value IsoSample.time_of_day
              day_number fine) as [_ Hrows].
  split; [exact Hin |]. split; [reflexivity |].
  split; [exact (Hthrows (ex_intro _ undated_activity (conj Hin eq_refl))) |].
  destruct (render_history IsoSample.time_value IsoSample.time_of_day day_number fine)
    as [rows |] eqn:Hfine; [| discriminate Hfine].
  simpl. f_equal. exact (proj1 (Hrows rows eq_refl)).
Defined.

Lemma updateTimer_last_wins_witness :
  let working := world_with (Some (sample_entry nine None active)) in
  let done := world_with (Some (sample_entry nine None completed)) in
  elapsedTime (ui (ticks IsoSample.time_value
                     ([1705309201000; 1705309202000] ++ [1705309205250]) working))
  = Js.Num 5250 /\
  timer_running (ui done) = false /\
  exec (updateTimer IsoSample.time_value 1705309205250) done = done.
Proof.
  intros working done.
  destruct (updateTimer_last_wins IsoSample.time_value working 1705309205250)
    as [Hlast _].
  destruct (updateTimer_last_wins IsoSample.time_value done 1705309205250)
    as [_ Hrest].
  split; [rewrite (Hlast [1705309201000; 1705309202000]); reflexivity |].
  split; [reflexivity | exact (Hrest eq_refl)].
Defined.

Lemma elapsed_follows_clock_witness :
  let e := sample_entry nine None active in
  IsoSample.time_value (Entry.clock_in e) = Js.Num 1705309200000 /\
  1705309201000 <= 1705309205000 /\
  exists a b : Z,
    elapsedTime (ui (exec (updateTimer IsoSample.time_value 1705309201000)
                          (world_with (Some e)))) = Js.Num a /\
    elapsedTime (ui (exec (updateTimer IsoSample.time_value 1705309205000)
                          (exec (updateTimer IsoSample.time_value 1705309201000)
                                (world_with (Some e))))) = Js.Num b /\
    b - a = 1705309205000 - 1705309201000 /\ a <= b.
Proof.
  intros e.
  assert (Hle : 1705309201000 <= 1705309205000) by discriminate.
  split; [reflexivity |]. split; [exact Hle |].
  exact (elapsed_follows_clock IsoSample.time_value (world_with (Some e)) e
           1705309200000 1705309201000 1705309205000 eq_refl eq_refl eq_refl Hle).
Defined.

Lemma error_toast_text_witness :
  "Already clocked in" <> "" /\
  toasts (handle_response ClockIn
            (Replied 400 (Some {| success := false; data := None;
                                  error := Some "Already clocked in" |}))
            (world_awaiting ClockIn None))
  = [toast_error "Already clocked in"] /\
  toasts (handle_response EndBreak
            (Replied 400 (Some {| success := false; data := None;
                                  error := Some "" |}))
            (world_awaiting EndBreak None))
  = [toast_error "Failed to end break"].
Proof.
  assert (Hne : "Already clocked in" <> "") by discriminate.
  destruct (error_toast_text ClockIn (world_awaiting ClockIn None))
    as (_ & Hserver & _).
  destruct (error_toast_text EndBreak (world_awaiting EndBreak None))
    as (Hfallback & _).
  split; [exact Hne |].
  split; [exact (Hserver 400 None "Already clocked in" Hne) |].
  exact (Hfallback 400 None (Some "")).
Defined.

Lemma session_changes_only_on_answers_witness :
  let opened := sample_entry nine None active in
  let accepted := Replied 200 (Some {| success := true; data := Some opened;
                                       error := None |}) in
  let w' := handleClockIn_response accepted
              (with_inflight (fun _ => []) world_clocking_in) in
  step IsoSample.time_value IsoSample.time_value IsoSample.time_of_day day_number
       (ResponseSettled ClockIn accepted) world_clocking_in = Some w' /\
  currentEntry (ui w') <> currentEntry (ui world_clocking_in) /\
  reports_success accepted = true.
Proof.
  intros opened accepted w'.
  assert (Hstep : step IsoSample.time_value IsoSample.time_value
                    IsoSample.time_of_day day_number
                    (ResponseSettled ClockIn accepted)
                    world_clocking_in = Some w') by reflexivity.
  assert (Hchanged : currentEntry (ui w') <> currentEntry (ui world_clocking_in))
    by discriminate.
  destruct (session_changes_only_on_answers IsoSample.time_value
              IsoSample.time_value IsoSample.time_of_day day_number
              (ResponseSettled ClockIn accepted) world_clocking_in w'
              Hstep Hchanged) as [(u & o & Hev) | (op & o & Hev & Hsuccess)].
  - discriminate Hev.
  - split; [exact Hstep |]. split; [exact Hchanged |].
    inversion Hev; subst. exact Hsuccess.
Defined.

Lemma idle_widget_not_busy_witness :
  let refused := Replied 400 (Some {| success := false; data := None;
                                      error := Some "Already clocked in" |}) in
  let w' := handleClockIn_response refused
              (with_inflight (fun _ => []) world_clocking_in) in
  run IsoSample.time_value IsoSample.time_value IsoSample.time_of_day day_number
      (clock_in_run ++ [ResponseSettled ClockIn refused]) mount = Some w' /\
  boot w' = Booted /\ inflight w' = [] /\ isLoading (ui w') = false.
Proof.
  intros refused w'.
  assert (Hrun : run IsoSample.time_value IsoSample.time_value
                     IsoSample.time_of_day day_number
                     (clock_in_run ++ [ResponseSettled ClockIn refused]) mount
                 = Some w') by reflexivity.
  pose proof (reachable_run _ _ _ _ _ mount w' (reachable_mount _ _ _ _) Hrun)
    as Hreach.
  split; [exact Hrun |]. split; [reflexivity |]. split; [reflexivity |].
  exact (idle_widget_not_busy _ _ _ _ w' Hreach eq_refl eq_refl).
Defined.

Lemma mount_rejection_is_final_witness :
  let stuck := with_boot BootFailed mount in
  step IsoSample.time_value IsoSample.time_value IsoSample.time_of_day day_number
       (InitUser AuthRejected) mount = Some stuck /\
  run IsoSample.time_value IsoSample.time_value IsoSample.time_of_day day_number
      [Call ClockIn; Render; Call ClockOut] stuck = Some stuck /\
  render IsoSample.time_value IsoSample.time_of_day day_number (ui stuck)
  = Skeleton /\
  requests stuck = [].
Proof.
  intros stuck.
  assert (Hstep : step IsoSample.time_value IsoSample.time_value
                    IsoSample.time_of_day day_number (InitUser AuthRejected) mount
                  = Some stuck) by reflexivity.
  pose proof (reachable_step _ _ _ _ (InitUser AuthRejected) mount stuck
                (reachable_mount _ _ _ _) Hstep) as Hreach.
  destruct (mount_rejection_is_final _ _ _ _ stuck Hreach eq_refl
              [Call ClockIn; Render; Call ClockOut] stuck eq_refl)
    as (_ & Hview & Hreq).
  split; [exact Hstep |]. split; [reflexivity |].
  split; [exact Hview | exact Hreq].
Defined.

Lemma mount_completes_witness :
  let fetching := with_boot (BootFetching false false) mount in
  boot fetching = BootFetching false false /\
  exists w',
    run IsoSample.time_value IsoSample.time_value IsoSample.time_of_day day_number
        [InitActivities signed_in
           (Replied 200 (Some {| success := true;
                                 data := Some [undated_activity];
                                 error := None |}));
         InitCurrent signed_in Rejected; InitTimeout] fetching = Some w' /\
    boot w' = Booted /\ isLoading (ui w') = false /\ inflight w' = [] /\
    toasts w' = [] /\
    render_history IsoSample.time_value IsoSample.time_of_day day_number (ui w')
    = None /\
    render IsoSample.time_value IsoSample.time_of_day day_number
           (page (commit w')) = RenderThrows.
Proof.
  intros fetching.
  assert (Hreach : reachable IsoSample.time_value IsoSample.time_value
                     IsoSample.time_of_day day_number fetching).
  { apply (reachable_step _ _ _ _ (InitUser signed_in) mount fetching).
    - apply reachable_mount.
    - reflexivity. }
  split; [reflexivity |].
  destruct (mount_completes _ _ _ _ fetching signed_in signed_in Rejected
              (Replied 200 (Some {| success := true;
                                    data := Some [undated_activity];
                                    error := None |}))
              Hreach eq_refl _ (or_intror eq_refl))
    as (w' & Hrun & Hb & Hl & Hi & Ht & _ & Hthrows).
  exists w'. split; [exact Hrun |]. split; [exact Hb |]. split; [exact Hl |].
  split; [exact Hi |]. split; [exact Ht |].
  assert (Hrows : render_history IsoSample.time_value IsoSample.time_of_day
                    day_number (ui w') = None).
  { simpl in Hrun. inversion Hrun; subst w'. reflexivity. }
  split; [exact Hrows | exact (Hthrows Hrows)].
Defined.

Lemma clock_out_only_when_active_witness :
  let resting := sample_entry nine (Some "2024-01-15T10:30:00.000Z") break in
  let working := sample_entry nine None active in
  (currentEntry (page (world_with (Some resting))) = Some resting /\
   Entry.status resting <> active /\
   action_buttons (page (world_with (Some resting))) = [] /\
   step IsoSample.time_value IsoSample.time_value IsoSample.time_of_day day_number
        (Click (ClockOutButton false)) (world_with (Some resting)) = None) /\
  (step IsoSample.time_value IsoSample.time_value IsoSample.time_of_day day_number
        (Click (ClockOutButton false)) (world_with (Some working))
   = Some (handleClockOut (world_with (Some working))) /\
   exists e, currentEntry (page (world_with (Some working))) = Some e /\
             Entry.status e = active /\ false = false /\
             isLoading (page (world_with (Some working))) = false).
Proof.
  intros resting working.
  assert (Hst : Entry.status resting <> active) by discriminate.
  destruct (clock_out_only_when_active IsoSample.time_value IsoSample.time_value
              IsoSample.time_of_day day_number (world_with (Some resting)))
    as [Hnone _].
  destruct (clock_out_only_when_active IsoSample.time_value IsoSample.time_value
              IsoSample.time_of_day day_number (world_with (Some working)))
    as [_ Hout].
  destruct (Hnone resting eq_refl Hst) as [Hbuttons Hclick].
  split.
  - split; [reflexivity |]. split; [exact Hst |].
    split; [exact Hbuttons | exact (Hclick _)].
  - split; [reflexivity |].
    exact (Hout false (handleClockOut (world_with (Some working))) eq_refl).
Defined.

Lemma shown_buttons_enabled_witness :
  let h := ui (world_with None) in
  let c := {| live := true; header := ReadyToClockIn;
              buttons := [ClockInButton false]; timer := None; history := [] |} in
  render IsoSample.time_value IsoSample.time_of_day day_number h = Shown c /\
  In (ClockInButton false) (buttons c) /\
  clickable IsoSample.time_value IsoSample.time_of_day day_number
            (ClockInButton false) h = true.
Proof.
  intros h c.
  assert (Hrender : render IsoSample.time_value IsoSample.time_of_day day_number h
                    = Shown c) by reflexivity.
  assert (Hin : In (ClockInButton false) (buttons c)) by (left; reflexivity).
  destruct (shown_buttons_enabled IsoSample.time_value IsoSample.time_of_day
              day_number h c Hrender) as [_ Hall].
  split; [exact Hrender |]. split; [exact Hin |].
  exact (proj2 (Hall _ Hin)).
Defined.

Lemma retained_history_at_most_three_witness :
  recentActivities (ui world_clocking_in)
  = [sample_activity "a-4"; sample_activity "a-3"; sample_activity "a-2"] /\
  (length (recentActivities (ui world_clocking_in)) <= 3)%nat /\
  history_rows (ui world_clocking_in) = recentActivities (ui world_clocking_in).
Proof.
  assert (Hrun : run IsoSample.time_value IsoSample.time_value
                     IsoSample.time_of_day day_number clock_in_run mount
                 = Some world_clocking_in) by reflexivity.
  pose proof (reachable_run _ _ _ _ clock_in_run mount world_clocking_in
                (reachable_mount _ _ _ _) Hrun) as Hreach.
  split; [reflexivity |].
  exact (retained_history_at_most_three _ _ _ _ world_clocking_in Hreach).
Defined.

Lemma current_fetch_by_status_witness :
  let working := sample_entry nine None active in
  (~ 200 <= 500 <= 299) /\
  currentEntry (ui (exec (fetchCurrentEntry signed_in (Replied 500 None))
                         (world_with (Some working)))) = None /\
  toasts (exec (fetchCurrentEntry signed_in (Replied 500 None))
               (world_with (Some working))) = [] /\
  200 <= 204 <= 299 /\
  isRealTime (ui (exec (fetchCurrentEntry signed_in
                          (Replied 204 (Some {| success := true; data := None;
                                                error := None |})))
                       mount)) = true.
Proof.
  intros working.
  assert (Hbad : ~ 200 <= 500 <= 299).
  { intros [_ H]. apply H. reflexivity. }
  assert (Hgood : 200 <= 204 <= 299) by (split; discriminate).
  destruct (current_fetch_by_status (world_with (Some working)) "u-1" 500)
    as [Hnot _].
  destruct (current_fetch_by_status mount "u-1" 204) as [_ Hok].
  destruct (Hnot Hbad None) as (Hcur & Htoasts & _).
  split; [exact Hbad |]. split; [exact Hcur |]. split; [exact Htoasts |].
  split; [exact Hgood |].
  exact (proj1 (Hok Hgood {| success := true; data := None; error := None |})).
Defined.

Lemma page_never_sends_break_witness :
  run IsoSample.time_value IsoSample.time_value IsoSample.time_of_day day_number
      clock_in_run mount = Some world_clocking_in /\
  forallb from_page clock_in_run = true /\
  Forall (fun r => is_break_request r = false) (requests world_clocking_in) /\
  step IsoSample.time_value IsoSample.time_value IsoSample.time_of_day day_number
       (ResponseSettled StartBreak Rejected) world_clocking_in = None.
Proof.
  assert (Hrun : run IsoSample.time_value IsoSample.time_value
                     IsoSample.time_of_day day_number clock_in_run mount
                 = Some world_clocking_in) by reflexivity.
  destruct (page_never_sends_break IsoSample.time_value IsoSample.time_value
              IsoSample.time_of_day day_number clock_in_run world_clocking_in
              Hrun eq_refl)
    as [Hreq Hno].
  split; [exact Hrun |]. split; [reflexivity |]. split; [exact Hreq |].
  exact (Hno StartBreak Rejected eq_refl).
Defined.
